(** * sklearn-porter: the KNeighborsClassifier adapter and its [port] method

    A shallow embedding of
    [sklearn_porter/estimator/KNeighborsClassifier/__init__.py].

    Python objects that the adapter creates or reads live in a heap of
    objects addressed by location, so that aliasing and in-place updates
    ([deepcopy], [dict.update]) are visible.  Exceptions, the heap, the
    process-global attribute [json.encoder.FLOAT_REPR] and a trace of
    observable steps (attribute reads on the estimator, log records,
    template loading) are threaded through a state-and-error monad. *)

From Stdlib Require Import ZArith String List Ascii Lia.
From Stdlib Require Import Floats.SpecFloat.
From stdpp Require Import base option list strings pretty.

Open Scope string_scope.
Open Scope list_scope.

(** ** Python values *)

(** A Python [float] is an IEEE-754 binary64 number.  The adapter never
    computes with floats, it only carries them from the estimator to a
    formatter, so the specification-level representation is enough. *)
Definition float : Type := spec_float.

#[warnings="-register-all"]
Inductive value : Type :=
| VNone
| VBool (b : bool)
| VInt (z : Z)
| VFloat (x : float)
| VStr (s : string)
| VList (l : list value).

(** A [dict] with string keys.  Python dictionaries keep insertion order,
    and [json.dumps] writes the keys in that order, so a dictionary is an
    association list without duplicate keys. *)
Definition dict : Type := list (string * value).

Fixpoint dict_lookup (d : dict) (k : string) : option value :=
  match d with
  | [] => None
  | (k', v) :: d' => if String.eqb k' k then Some v else dict_lookup d' k
  end.

(** [d.get(k)]: [None] when the key is missing. *)
Definition dict_get (d : dict) (k : string) : value :=
  default VNone (dict_lookup d k).

(** [d[k] = v]: an existing key keeps its position. *)
Fixpoint dict_set (d : dict) (k : string) (v : value) : dict :=
  match d with
  | [] => [(k, v)]
  | (k', v') :: d' =>
      if String.eqb k' k then (k, v) :: d' else (k', v') :: dict_set d' k v
  end.

(** [d.update(other)] *)
Definition dict_update (d other : dict) : dict :=
  fold_left (fun acc kv => dict_set acc (fst kv) (snd kv)) other d.

(** [dict(k1=v1, ...)]: built by successive assignment. *)
Definition dict_of (items : list (string * value)) : dict :=
  dict_update [] items.

(** [len(l)] as a Python int. *)
Definition len {A : Type} (l : list A) : Z := Z.of_nat (length l).

(** [str(i)] for a Python int: its decimal numeral. *)
Definition str_int (i : Z) : string := pretty i.

(** [sep.join(parts)] *)
Definition join (sep : string) (parts : list string) : string :=
  String.concat sep parts.

(** ** Enumerations of the request *)

(** Modelled from the spec: [sklearn_porter.enums] is not among the
    sources.  The adapter names the members [Language.JAVA],
    [Language.JS], [Template.ATTACHED], [Template.EXPORTED] and
    [Method.PREDICT]; the spec speaks of an enumerated set of target
    languages, of the modes Attached | Exported and of the methods
    Predict and PredictProbabilities.  Every language has a [KEY]
    (read by [port] as [language.value.KEY]) and every method a string
    [value] (the default method name). *)
Module Language.
Inductive t : Type := JAVA | JS | OTHER (key : string).
Definition KEY (l : t) : string :=
  match l with JAVA => "java" | JS => "js" | OTHER k => k end.
Definition eqb (a b : t) : bool :=
  match a, b with
  | JAVA, JAVA | JS, JS => true
  | OTHER k, OTHER k' => String.eqb k k'
  | _, _ => false
  end.
End Language.

Module Template.
Inductive t : Type := ATTACHED | EXPORTED.
Definition eqb (a b : t) : bool :=
  match a, b with
  | ATTACHED, ATTACHED | EXPORTED, EXPORTED => true
  | _, _ => false
  end.
End Template.

Module Method.
Inductive t : Type := PREDICT | PREDICT_PROBA.
Definition value (m : t) : string :=
  match m with PREDICT => "predict" | PREDICT_PROBA => "predict_proba" end.
Definition eqb (a b : t) : bool :=
  match a, b with
  | PREDICT, PREDICT | PREDICT_PROBA, PREDICT_PROBA => true
  | _, _ => false
  end.
End Method.

(** ** Exceptions *)

(** The field of a request that a capability error names. *)
Inductive Field : Type := FieldLanguage | FieldTemplate | FieldMethod.

Inductive exn : Type :=
| NotFittedEstimatorError (name : string)
| NotSupportedYetError (msg : string)
| CapabilityError (field : Field)
| TemplateNotFound (name : string)
| TypeError (msg : string)
| IndexError (msg : string)
| AttributeError (msg : string).

(** The four error kinds the engine declares; [TypeError], [IndexError]
    and [AttributeError] are the interpreter's own. *)
Definition declared_error (e : exn) : bool :=
  match e with
  | NotFittedEstimatorError _ | NotSupportedYetError _
  | CapabilityError _ | TemplateNotFound _ => true
  | TypeError _ | IndexError _ | AttributeError _ => false
  end.

(** ** The capability registry *)

(** [SUPPORT]: language -> template mode -> set of methods. *)
Definition SupportTable : Type :=
  list (Language.t * list (Template.t * list Method.t)).

Fixpoint lookup_language (s : SupportTable) (l : Language.t)
  : option (list (Template.t * list Method.t)) :=
  match s with
  | [] => None
  | (l', modes) :: s' =>
      if Language.eqb l' l then Some modes else lookup_language s' l
  end.

Fixpoint lookup_template (modes : list (Template.t * list Method.t))
  (t : Template.t) : option (list Method.t) :=
  match modes with
  | [] => None
  | (t', ms) :: modes' =>
      if Template.eqb t' t then Some ms else lookup_template modes' t
  end.

Definition method_in (m : Method.t) (ms : list Method.t) : bool :=
  existsb (Method.eqb m) ms.

(** The class-level constants of an estimator kind. *)
Record Kind : Type := {
  DEFAULT_LANGUAGE : Language.t;
  DEFAULT_TEMPLATE : Template.t;
  DEFAULT_METHOD : Method.t;
  SUPPORT : SupportTable
}.

(** Modelled from the spec: [EstimatorBase.check] is not among the
    sources.  Any omitted field is replaced by the kind's declared
    default; the resolved triple is then validated against the table.
    If the language or the (language, mode) pair is absent, or the method
    is not in that pair's supported set, it fails with a capability error
    naming the offending field.  The result is in the order in which
    [port] unpacks it: method, language, template. *)
Definition check (K : Kind)
  (method : option Method.t) (language : option Language.t)
  (template : option Template.t)
  : exn + (Method.t * Language.t * Template.t) :=
  let method := default (DEFAULT_METHOD K) method in
  let language := default (DEFAULT_LANGUAGE K) language in
  let template := default (DEFAULT_TEMPLATE K) template in
  match lookup_language (SUPPORT K) language with
  | None => inl (CapabilityError FieldLanguage)
  | Some modes =>
      match lookup_template modes template with
      | None => inl (CapabilityError FieldTemplate)
      | Some methods =>
          if method_in method methods
          then inr (method, language, template)
          else inl (CapabilityError FieldMethod)
      end
  end.

(** The class attributes of [KNeighborsClassifier]. *)
Definition KNeighborsClassifier : Kind := {|
  DEFAULT_LANGUAGE := Language.JAVA;
  DEFAULT_TEMPLATE := Template.ATTACHED;
  DEFAULT_METHOD := Method.PREDICT;
  SUPPORT :=
    [ (Language.JAVA,
        [ (Template.ATTACHED, [Method.PREDICT]);
          (Template.EXPORTED, [Method.PREDICT]) ]);
      (Language.JS,
        [ (Template.ATTACHED, [Method.PREDICT]);
          (Template.EXPORTED, [Method.PREDICT]) ]) ]
|}.

(** ** The estimator and the adapter *)

(** [weights] of a scikit-learn neighbours estimator is a string
    (['uniform'], ['distance']) or a callable. *)
Inductive weights_option : Type :=
| WeightsStr (s : string)
| WeightsCallable.

(** The attributes of the wrapped scikit-learn estimator that the adapter
    reads, and the name of its class.  [classes_] exists only after [fit];
    [_fit_X] is the matrix of training examples (one row per example),
    [_y] the class index of each example. *)
Record Estimator : Type := {
  qualname : string;
  classes_ : option (list value);
  weights : weights_option;
  _fit_X : list (list float);
  _y : list Z;
  n_neighbors : Z;
  p : Z;
  metric : string
}.

(** [self.meta_info] and [self.model_data] are dictionaries with a fixed
    set of keys; they are records here, with the dictionary view next to
    them. *)
Record MetaInfo : Type := {
  n_classes : Z;
  n_templates : Z;
  n_features : Z;
  meta_metric : string
}.

Record ModelData : Type := {
  X : list (list float);
  y : list Z;
  k : Z;
  n : Z;
  power : Z
}.

Definition meta_info_items (m : MetaInfo) : dict :=
  dict_of [ ("n_classes", VInt (n_classes m));
            ("n_templates", VInt (n_templates m));
            ("n_features", VInt (n_features m));
            ("metric", VStr (meta_metric m)) ].

Definition model_data_items (d : ModelData) : dict :=
  dict_of [ ("X", VList (map (fun row => VList (map VFloat row)) (X d)));
            ("y", VList (map VInt (y d)));
            ("k", VInt (k d));
            ("n", VInt (n d));
            ("power", VInt (power d)) ].

(** ** Heap, global state and trace *)

Definition loc : Type := nat.

Inductive object : Type :=
| ODict (d : dict)
| OMetaInfo (m : MetaInfo)
| OModelData (d : ModelData).

(** Observable steps. *)
Inductive event : Type :=
| EvLog (record : string)
| EvGetAttr (attr : string)
| EvSetAttr (attr : string)
| EvLoadTemplates (key : string)
| EvGetTemplate (name : string).

(** [FLOAT_REPR] is the module attribute [json.encoder.FLOAT_REPR], a
    callable; calling it may raise. *)
Record state : Type := {
  heap : list object;
  FLOAT_REPR : float -> exn + string;
  trace : list event
}.

(** The adapter instance: the estimator it wraps, the estimator's name and
    references to its three dictionaries. *)
Record Adapter : Type := {
  estimator : Estimator;
  estimator_name : string;
  placeholders : loc;
  meta_info : loc;
  model_data : loc
}.

(** ** The monad of Python computations *)

Definition M (A : Type) : Type := state -> (exn + A) * state.

Definition ret {A : Type} (a : A) : M A := fun s => (inr a, s).

Definition raise {A : Type} (e : exn) : M A := fun s => (inl e, s).

Definition bind {A B : Type} (c : M A) (f : A -> M B) : M B :=
  fun s =>
    match c s with
    | (inl e, s') => (inl e, s')
    | (inr a, s') => f a s'
    end.

#[global] Instance M_ret : MRet M := @ret.
#[global] Instance M_bind : MBind M := fun A B f c => bind c f.

(** Computations that only raise: [exn + A]. *)
#[global] Instance exn_ret : MRet (sum exn) := fun A a => inr a.
#[global] Instance exn_bind : MBind (sum exn) := fun A B f c =>
  match c with inl e => inl e | inr a => f a end.

Definition lift {A : Type} (r : exn + A) : M A :=
  match r with inl e => raise e | inr a => ret a end.

Definition emit (e : event) : M unit :=
  fun s => (inr tt, {| heap := heap s; FLOAT_REPR := FLOAT_REPR s;
                       trace := trace s ++ [e] |}).

Definition alloc (o : object) : M loc :=
  fun s => (inr (length (heap s)),
            {| heap := heap s ++ [o]; FLOAT_REPR := FLOAT_REPR s;
               trace := trace s |}).

Definition store (l : loc) (o : object) : M unit :=
  fun s => (inr tt, {| heap := <[l := o]> (heap s);
                       FLOAT_REPR := FLOAT_REPR s; trace := trace s |}).

(** Reading the dictionary behind a reference; a reference to nothing
    behaves like [None]. *)
Definition load_dict (l : loc) : M dict :=
  fun s => match heap s !! l with
           | Some (ODict d) => (inr d, s)
           | Some (OMetaInfo m) => (inr (meta_info_items m), s)
           | Some (OModelData d) => (inr (model_data_items d), s)
           | None => (inl (AttributeError "'NoneType' object"), s)
           end.

Definition load_model_data (l : loc) : M ModelData :=
  fun s => match heap s !! l with
           | Some (OModelData d) => (inr d, s)
           | _ => (inl (AttributeError "model_data"), s)
           end.

Definition set_FLOAT_REPR (f : float -> exn + string) : M unit :=
  fun s => (inr tt, {| heap := heap s; FLOAT_REPR := f; trace := trace s |}).

(** [deepcopy(d)] of a dictionary: a new object with equal contents (the
    values stored in placeholder dictionaries are immutable). *)
Definition deepcopy (l : loc) : M loc :=
  d ← load_dict l; alloc (ODict d).

(** [d.update(other)] in place, on the object at [l]. *)
Definition update_at (l : loc) (other : dict) : M unit :=
  d ← load_dict l; store l (ODict (dict_update d other)).

(** Reading an attribute that the estimator has: the read is recorded in
    the trace. *)
Definition getattr {A : Type} (attr : string) (v : A) : M A :=
  emit (EvGetAttr attr);; ret v.

(** [try: c except AttributeError: handler] *)
Definition try_except_AttributeError {A : Type} (c : M A) (handler : M A)
  : M A :=
  fun s =>
    match c s with
    | (inl (AttributeError _), s') => handler s'
    | r => r
    end.

(** [est.classes_]: the attribute is missing on an estimator that was not
    fitted. *)
Definition get_classes_ (est : Estimator) : M (list value) :=
  emit (EvGetAttr "classes_");;
  match classes_ est with
  | Some c => ret c
  | None => raise (AttributeError "classes_")
  end.

(** [l[0]] *)
Definition first_row {A : Type} (l : list (list A)) : exn + list A :=
  match l with
  | [] => inl (IndexError "index 0 is out of bounds")
  | row :: _ => inr row
  end.

(** [est.weights != 'uniform'] *)
Definition weights_not_uniform (w : weights_option) : bool :=
  match w with
  | WeightsStr s => negb (String.eqb s "uniform")
  | WeightsCallable => true
  end.

(** ** Templates *)

(** A template of the template engine is its [render] method: from the
    keyword arguments to the rendered text.  A loaded template set answers
    [get_template(name)]; an unknown name raises. *)
Record Fragment : Type := { render : dict -> string }.

Definition Environment : Type := string -> option Fragment.

(** [tpls.get_template(name)] without the trace. *)
Definition find_template (tpls : Environment) (name : string)
  : exn + Fragment :=
  match tpls name with
  | Some t => inr t
  | None => inl (TemplateNotFound name)
  end.

Definition get_template (tpls : Environment) (name : string) : M Fragment :=
  emit (EvGetTemplate name);;
  lift (find_template tpls name).

(** ** Requests and results *)

(** The keyword arguments [port] looks at.  [None] is an absent key. *)
Record kwargs : Type := {
  class_name : option value;
  method_name : option value;
  converter : option (float -> string)
}.

(** [kwargs.get(key)] *)
Definition kwargs_get (v : option value) : value := default VNone v.

(** [kwargs.setdefault('method_name', v)] *)
Definition setdefault_method_name (kw : kwargs) (v : value) : kwargs :=
  {| class_name := class_name kw;
     method_name := match method_name kw with
                    | Some v' => Some v'
                    | None => Some v
                    end;
     converter := converter kw |}.

Inductive PortResult : Type :=
| Source (out_class : string)
| SourceAndData (out_class : string) (model_data : string).

(** [lambda o: converter(o)]: calling [None] raises. *)
Definition call_converter (converter : option (float -> string))
  : float -> exn + string :=
  fun o =>
    match converter with
    | Some c => inr (c o)
    | None => inl (TypeError "'NoneType' object is not callable")
    end.

(** [list(map(converter, v))]: [map] is lazy, so a converter that is not
    callable raises only when there is an element to convert. *)
Definition convert_row (converter : option (float -> string))
  (v : list float) : exn + list string :=
  match converter with
  | Some c => inr (map c v)
  | None =>
      match v with
      | [] => inr []
      | _ :: _ => inl (TypeError "'NoneType' object is not callable")
      end
  end.

(** [tpl_in_brackets.render(value=', '.join(list(map(converter, v))))] *)
Definition row_in_brackets (tpl_in_brackets : Fragment)
  (converter : option (float -> string)) (v : list float) : exn + string :=
  match convert_row converter v with
  | inl e => inl e
  | inr cells =>
      inr (render tpl_in_brackets
             (dict_of [("value", VStr (join ", " cells))]))
  end.

(** [list(... for v in x_val)]: rows are rendered in order, the first
    exception ends the loop. *)
Fixpoint rows_in_brackets (tpl_in_brackets : Fragment)
  (converter : option (float -> string)) (x_val : list (list float))
  : exn + list string :=
  match x_val with
  | [] => inr []
  | v :: rest =>
      match row_in_brackets tpl_in_brackets converter v with
      | inl e => inl e
      | inr r =>
          match rows_in_brackets tpl_in_brackets converter rest with
          | inl e => inl e
          | inr rs => inr (r :: rs)
          end
      end
  end.

(** The value of [x_str]: the keyword arguments are evaluated left to
    right, [values] before [n] and [m]. *)
Definition render_X (tpl_arr_2 tpl_in_brackets : Fragment)
  (tpl_double : string) (converter : option (float -> string))
  (x_val : list (list float)) : exn + string :=
  match rows_in_brackets tpl_in_brackets converter x_val with
  | inl e => inl e
  | inr rows =>
      match first_row x_val with
      | inl e => inl e
      | inr row0 =>
          inr (render tpl_arr_2
                 (dict_of [ ("type", VStr tpl_double);
                            ("name", VStr "X");
                            ("values", VStr (join ", " rows));
                            ("n", VInt (len x_val));
                            ("m", VInt (len row0)) ]))
      end
  end.

(** [y_val = list(map(str, self.model_data.get('y')))] *)
Definition y_val (y_model : list Z) : list string := map str_int y_model.

(** The value of [y_str]. *)
Definition render_y (tpl_arr_1 : Fragment) (tpl_int : string)
  (y_model : list Z) : string :=
  let y_val := y_val y_model in
  render tpl_arr_1
    (dict_of [ ("type", VStr tpl_int);
               ("name", VStr "y");
               ("values", VStr (join ", " y_val));
               ("n", VInt (len y_val)) ]).

(** ** The JSON encoder *)

(** [json.dumps(obj, separators=(',', ':'))] with the float writer made
    explicit.  Keys and strings of the model data contain nothing that
    needs escaping. *)
Definition quoted (s : string) : string :=
  String (ascii_of_nat 34) (s +:+ String (ascii_of_nat 34) EmptyString).

Fixpoint encode_value (floatstr : float -> string) (v : value) : string :=
  match v with
  | VNone => "null"
  | VBool true => "true"
  | VBool false => "false"
  | VInt z => str_int z
  | VFloat x => floatstr x
  | VStr s => quoted s
  | VList l =>
      "[" +:+ join "," (map (encode_value floatstr) l) +:+ "]"
  end.

Definition encode_dict (floatstr : float -> string) (d : dict) : string :=
  "{" +:+ join ","
            (map (fun kv => quoted (fst kv) +:+ ":" +:+
                            encode_value floatstr (snd kv)) d)
      +:+ "}".

(** ** The adapter's methods *)

Section Engine.

(** [float.__repr__], the interpreter's shortest round-trip numeral of a
    float. *)
Variable float_repr : float -> string.

(** Whether the module's logger is enabled for [DEBUG]. *)
Variable debug_enabled : bool.

(** The initial contents of an adapter's placeholder dictionary. *)
Variable base_placeholders : dict.

(** [EstimatorBase._load_templates(key)]: the template set of a target
    language; the templates are assets outside the engine. *)
Variable _load_templates : string -> Environment.

(** The float writer of [json.encoder]: [floatstr] inside
    [JSONEncoder.iterencode]. *)
Definition floatstr (o : float) : string :=
  match o with
  | S754_nan => "NaN"
  | S754_infinity false => "Infinity"
  | S754_infinity true => "-Infinity"
  | _ => float_repr o
  end.

(** [json.dumps(obj, separators=(',', ':'))] as CPython runs it:
    [JSONEncoder.iterencode] binds its float writer to [float.__repr__]
    when the function is defined ([_repr=float.__repr__]), and the
    one-shot C encoder that [dumps] uses writes floats with
    [float.__repr__] too.  Neither reads the module attribute
    [encoder.FLOAT_REPR], so the encoder does not consult the state. *)
Definition dumps (obj : dict) : M string :=
  ret (encode_dict floatstr obj).

(** Modelled from the spec: [EstimatorBase.__init__] is not among the
    sources.  It wraps the estimator, records its class name (read by
    [__init__] as [self.estimator_name]) and creates the adapter's own
    placeholder dictionary (copied by [port] from [self.placeholders]).
    It yields the name and the placeholders' location. *)
Definition EstimatorBase__init__ (est : Estimator) : M (string * loc) :=
  emit (EvSetAttr "estimator");;
  l ← alloc (ODict base_placeholders);
  emit (EvSetAttr "placeholders");;
  ret (qualname est, l).

(** [KNeighborsClassifier.__init__] *)
Definition __init__ (est : Estimator) : M Adapter :=
  base ← EstimatorBase__init__ est;
  let self_estimator_name := fst base in
  emit (EvLog "Create specific estimator");;
  (* Is the estimator fitted? *)
  try_except_AttributeError
    (get_classes_ est;; ret tt)
    (raise (NotFittedEstimatorError self_estimator_name));;
  w ← getattr "weights" (weights est);
  (if weights_not_uniform w
   then raise (NotSupportedYetError "Only `uniform` weights are supported.")
   else ret tt);;
  (* self.meta_info = dict(...) *)
  cls ← get_classes_ est;
  fit_X ← getattr "_fit_X" (_fit_X est);
  fit_X' ← getattr "_fit_X" (_fit_X est);
  row0 ← lift (first_row fit_X');
  mtr ← getattr "metric" (metric est);
  mi ← alloc (OMetaInfo {| n_classes := len cls;
                           n_templates := len fit_X;
                           n_features := len row0;
                           meta_metric := mtr |});
  emit (EvSetAttr "meta_info");;
  emit (EvLog "Meta info (keys)");;
  (if debug_enabled then emit (EvLog "Meta info") else ret tt);;
  (* self.model_data = dict(...) *)
  x ← getattr "_fit_X" (_fit_X est);
  y_ ← getattr "_y" (_y est);
  k_ ← getattr "n_neighbors" (n_neighbors est);
  cls' ← get_classes_ est;
  p_ ← getattr "p" (p est);
  md ← alloc (OModelData {| X := x; y := y_; k := k_;
                            n := len cls'; power := p_ |});
  emit (EvSetAttr "model_data");;
  emit (EvLog "Model data (keys)");;
  (if debug_enabled then emit (EvLog "Model data") else ret tt);;
  ret {| estimator := est;
         estimator_name := self_estimator_name;
         placeholders := snd base;
         meta_info := mi;
         model_data := md |}.

(** [self._load_templates(language.value.KEY)] *)
Definition load_templates (key : string) : M Environment :=
  emit (EvLoadTemplates key);;
  ret (_load_templates key).

(** The branch [if template == Template.EXPORTED]. *)
Definition port_exported (self : Adapter) (tpls : Environment)
  (plas : loc) (kw : kwargs) : M PortResult :=
  tpl_class ← get_template tpls "exported.class";
  plas_now ← load_dict plas;
  let out_class := render tpl_class plas_now in
  let converter := converter kw in
  set_FLOAT_REPR (call_converter converter);;
  obj ← load_dict (model_data self);
  model_data ← dumps obj;
  ret (SourceAndData out_class model_data).

(** The rest of [port]: the attached class. *)
Definition port_attached (self : Adapter) (tpls : Environment)
  (plas : loc) (converter : option (float -> string)) : M PortResult :=
  (* Pick templates: *)
  t_int ← get_template tpls "int";
  let tpl_int := render t_int [] in
  t_double ← get_template tpls "double";
  let tpl_double := render t_double [] in
  tpl_arr_1 ← get_template tpls "arr[]";
  tpl_arr_2 ← get_template tpls "arr[][]";
  tpl_in_brackets ← get_template tpls "in_brackets";
  md ← load_model_data (model_data self);
  let x_val := X md in
  x_str ← lift (render_X tpl_arr_2 tpl_in_brackets tpl_double
                  converter x_val);
  let y_str := render_y tpl_arr_1 tpl_int (y md) in
  (* Make class: *)
  tpl_class ← get_template tpls "attached.class";
  update_at plas (dict_of [ ("X", VStr x_str);
                            ("y", VStr y_str);
                            ("k", VInt (k md));
                            ("n", VInt (n md));
                            ("power", VInt (power md)) ]);;
  plas_now ← load_dict plas;
  ret (Source (render tpl_class plas_now)).

(** [KNeighborsClassifier.port] *)
Definition port (self : Adapter)
  (language : option Language.t) (template : option Template.t)
  (to_json : bool) (kw : kwargs) : M PortResult :=
  checked ← lift (check KNeighborsClassifier None language template);
  let method := fst (fst checked) in
  let language := snd (fst checked) in
  let template := snd checked in
  (* Arguments: *)
  let kw := setdefault_method_name kw (VStr (Method.value method)) in
  let converter := converter kw in
  (* Placeholders: *)
  plas ← deepcopy (placeholders self);
  update_at plas (dict_of [ ("class_name", kwargs_get (class_name kw));
                            ("method_name", kwargs_get (method_name kw));
                            ("to_json", VBool to_json) ]);;
  mi ← load_dict (meta_info self);
  update_at plas mi;;
  (* Templates: *)
  tpls ← load_templates (Language.KEY language);
  (* Export: *)
  if Template.eqb template Template.EXPORTED
  then port_exported self tpls plas kw
  else port_attached self tpls plas converter.

(** Constructing the adapter for an estimator and porting it: what a
    caller that holds only the estimator does. *)
Definition construct_and_port (est : Estimator)
  (language : option Language.t) (template : option Template.t)
  (to_json : bool) (kw : kwargs) : M PortResult :=
  self ← __init__ est;
  port self language template to_json kw.

(** *** The result of [port] as a function of what it reads

    [port] reads three objects through [self] (the placeholder
    dictionary, the meta information and the model data), the request
    and the loaded templates.  [port_result] is the result it returns,
    written without the heap and the trace; [port_run] below proves that
    [port] returns it. *)

Definition attached_result (tpls : Environment) (plas : dict)
  (md : ModelData) (converter : option (float -> string))
  : exn + PortResult :=
  t_int ← find_template tpls "int";
  t_double ← find_template tpls "double";
  tpl_arr_1 ← find_template tpls "arr[]";
  tpl_arr_2 ← find_template tpls "arr[][]";
  tpl_in_brackets ← find_template tpls "in_brackets";
  x_str ← render_X tpl_arr_2 tpl_in_brackets (render t_double [])
            converter (X md);
  tpl_class ← find_template tpls "attached.class";
  inr (Source
         (render tpl_class
            (dict_update plas
               (dict_of [ ("X", VStr x_str);
                          ("y", VStr (render_y tpl_arr_1
                                        (render t_int []) (y md)));
                          ("k", VInt (k md));
                          ("n", VInt (n md));
                          ("power", VInt (power md)) ])))).

Definition exported_result (tpls : Environment) (plas : dict)
  (md : ModelData) : exn + PortResult :=
  tpl_class ← find_template tpls "exported.class";
  inr (SourceAndData (render tpl_class plas)
         (encode_dict floatstr (model_data_items md))).

(** The placeholders after the two updates at the start of [port]. *)
Definition request_placeholders (ph : dict) (mi : MetaInfo)
  (method : Method.t) (to_json : bool) (kw : kwargs) : dict :=
  let kw := setdefault_method_name kw (VStr (Method.value method)) in
  dict_update
    (dict_update ph
       (dict_of [ ("class_name", kwargs_get (class_name kw));
                  ("method_name", kwargs_get (method_name kw));
                  ("to_json", VBool to_json) ]))
    (meta_info_items mi).

Definition port_result (ph : dict) (mi : MetaInfo) (md : ModelData)
  (language : option Language.t) (template : option Template.t)
  (to_json : bool) (kw : kwargs) : exn + PortResult :=
  checked ← check KNeighborsClassifier None language template;
  let method := fst (fst checked) in
  let language := snd (fst checked) in
  let template := snd checked in
  let plas := request_placeholders ph mi method to_json kw in
  let tpls := _load_templates (Language.KEY language) in
  if Template.eqb template Template.EXPORTED
  then exported_result tpls plas md
  else attached_result tpls plas md (converter kw).

(** [encoder.FLOAT_REPR] after [port]: replaced once the exported class
    has been rendered. *)
Definition FLOAT_REPR_after (f : float -> exn + string)
  (language : option Language.t) (template : option Template.t)
  (kw : kwargs) : float -> exn + string :=
  match check KNeighborsClassifier None language template with
  | inl _ => f
  | inr checked =>
      if Template.eqb (snd checked) Template.EXPORTED
      then match _load_templates (Language.KEY (snd (fst checked)))
                   "exported.class" with
           | Some _ => call_converter (converter kw)
           | None => f
           end
      else f
  end.

End Engine.

(** ** Notions used in the statements *)

(** Membership of a triple in a support table, entry by entry. *)
Definition supportedb (K : Kind) (l : Language.t) (t : Template.t)
  (m : Method.t) : bool :=
  existsb
    (fun lm => Language.eqb (fst lm) l &&
       existsb (fun tm => Template.eqb (fst tm) t && method_in m (snd tm))
         (snd lm))
    (SUPPORT K).

(** Reading the learned data or the hyper-parameters of the estimator, or
    storing the extracted dictionaries. *)
Definition extraction_event (e : event) : bool :=
  match e with
  | EvGetAttr a =>
      String.eqb a "_fit_X" || String.eqb a "_y" ||
      String.eqb a "n_neighbors" || String.eqb a "p" ||
      String.eqb a "metric"
  | EvSetAttr a => String.eqb a "meta_info" || String.eqb a "model_data"
  | _ => false
  end.

Definition template_event (e : event) : bool :=
  match e with
  | EvLoadTemplates _ | EvGetTemplate _ => true
  | _ => false
  end.

(** What a construction does before it looks at the estimator. *)
Definition construction_start : list event :=
  [ EvSetAttr "estimator"; EvSetAttr "placeholders";
    EvLog "Create specific estimator" ].

(** The events of a construction that succeeds. *)
Definition init_events (debug_enabled : bool) : list event :=
  construction_start ++
  [ EvGetAttr "classes_"; EvGetAttr "weights";
    EvGetAttr "classes_"; EvGetAttr "_fit_X"; EvGetAttr "_fit_X";
    EvGetAttr "metric"; EvSetAttr "meta_info"; EvLog "Meta info (keys)" ] ++
  (if debug_enabled then [EvLog "Meta info"] else []) ++
  [ EvGetAttr "_fit_X"; EvGetAttr "_y"; EvGetAttr "n_neighbors";
    EvGetAttr "classes_"; EvGetAttr "p"; EvSetAttr "model_data";
    EvLog "Model data (keys)" ] ++
  (if debug_enabled then [EvLog "Model data"] else []).

(** The adapter's three references point, in the heap of [s], to a
    placeholder dictionary, a meta information and a model data. *)
Definition well_formed (self : Adapter) (s : state)
  (ph : dict) (mi : MetaInfo) (md : ModelData) : Prop :=
  heap s !! placeholders self = Some (ODict ph) /\
  heap s !! meta_info self = Some (OMetaInfo mi) /\
  heap s !! model_data self = Some (OModelData md).

(** Every literal of a list was produced by the converter. *)
Definition converter_produced (convert : float -> string)
  (literals : list string) : Prop :=
  forall lit, In lit literals -> exists x, convert x = lit.

(** *** The inline literals in the spec's words

    "Assemble a bracket-wrapped literal for nested (matrix) data using a
    recursive render per row (each row independently converted, then
    joined, then wrapped)"; the wrapped rows are joined and rendered
    through the two-dimensional array template with the row count and the
    column count of the matrix, the label array through the
    one-dimensional array template with its element count. *)
Definition bracketed_row (in_brackets : Fragment)
  (convert : float -> string) (row : list float) : string :=
  render in_brackets
    (dict_of [("value", VStr (join ", " (map convert row)))]).

Definition column_count (rows : list (list float)) : Z :=
  match rows with
  | [] => 0
  | row :: _ => len row
  end.

Definition matrix_literal (arr_2 in_brackets : Fragment)
  (type name : string) (convert : float -> string)
  (rows : list (list float)) : string :=
  render arr_2
    (dict_of [ ("type", VStr type);
               ("name", VStr name);
               ("values",
                 VStr (join ", "
                         (map (bracketed_row in_brackets convert) rows)));
               ("n", VInt (len rows));
               ("m", VInt (column_count rows)) ]).

Definition vector_literal (arr_1 : Fragment) (type name : string)
  (labels : list Z) : string :=
  render arr_1
    (dict_of [ ("type", VStr type);
               ("name", VStr name);
               ("values", VStr (join ", " (map str_int labels)));
               ("n", VInt (len labels)) ]).

(** The array literal of a matrix whose cells are already converted to
    text: what [render_X] makes of the converter's outputs. *)
Definition literal_of_cells (arr_2 in_brackets : Fragment) (type : string)
  (cells : list (list string)) : exn + string :=
  match cells with
  | [] => inl (IndexError "index 0 is out of bounds")
  | row0 :: _ =>
      inr (render arr_2
             (dict_of [ ("type", VStr type);
                        ("name", VStr "X");
                        ("values",
                          VStr (join ", "
                                  (map (fun row =>
                                          render in_brackets
                                            (dict_of [("value",
                                               VStr (join ", " row))]))
                                       cells)));
                        ("n", VInt (len cells));
                        ("m", VInt (len row0)) ]))
  end.

(** ** Further notions used in the statements *)

(** The estimator is fitted, weighs uniformly and has a training
    example. *)
Definition constructible (est : Estimator) : bool :=
  match classes_ est, _fit_X est with
  | Some _, _ :: _ => negb (weights_not_uniform (weights est))
  | _, _ => false
  end.

(** What [__init__] extracts from a constructible estimator. *)
Definition extracted_meta_info (est : Estimator) : MetaInfo :=
  {| n_classes := len (default [] (classes_ est));
     n_templates := len (_fit_X est);
     n_features := column_count (_fit_X est);
     meta_metric := metric est |}.

Definition extracted_model_data (est : Estimator) : ModelData :=
  {| X := _fit_X est; y := _y est; k := n_neighbors est;
     n := len (default [] (classes_ est)); power := p est |}.

Definition is_get_template (e : event) : bool :=
  match e with EvGetTemplate _ => true | _ => false end.

(** The last update of the attached branch:
    [plas.update(dict(X=x_str, y=y_str, k=..., n=..., power=...))]. *)
Definition attached_update (x_str y_str : string) (md : ModelData) : dict :=
  dict_of [ ("X", VStr x_str); ("y", VStr y_str);
            ("k", VInt (k md)); ("n", VInt (n md));
            ("power", VInt (power md)) ].

(** The keys that [port] writes into the placeholder mapping of a call:
    at its start, and at the end of the attached branch. *)
Definition request_keys : list string :=
  [ "class_name"; "method_name"; "to_json";
    "n_classes"; "n_templates"; "n_features"; "metric" ].

Definition attached_keys : list string := [ "X"; "y"; "k"; "n"; "power" ].

(** The generic templates, in the order in which [port] fetches them, and
    all the templates that [port] may fetch. *)
Definition generic_templates : list string :=
  [ "int"; "double"; "arr[]"; "arr[][]"; "in_brackets" ].


(** The first name of a list that a template set does not have. *)
Fixpoint first_missing (tpls : Environment) (names : list string)
  : option string :=
  match names with
  | [] => None
  | name :: rest =>
      match tpls name with
      | Some _ => first_missing tpls rest
      | None => Some name
      end
  end.

Definition is_empty_row (row : list float) : bool :=
  match row with [] => true | _ :: _ => false end.

(** ** A concrete setting for examples *)

Module Sample.

(** [z] in decimal, padded with zeros on the left to [width] digits. *)
Definition zero_padded (width : nat) (z : Z) : string :=
  let s := pretty z in
  String.concat "" (repeat "0" (width - String.length s)) +:+ s.

(** The exact decimal numeral of a finite float with an odd mantissa (a
    multiple of a power of two).  On floats whose exact expansion is
    short, such as 0.25, 1.5 or 2.0, this is what [float.__repr__]
    returns. *)
Definition float_repr (x : float) : string :=
  match x with
  | S754_zero s => if s then "-0.0" else "0.0"
  | S754_infinity s => if s then "-inf" else "inf"
  | S754_nan => "nan"
  | S754_finite s m e =>
      (if s then "-" else "") +:+
      match e with
      | Zneg q =>
          let num := (Z.pos m * 5 ^ Z.pos q)%Z in
          let den := (10 ^ Z.pos q)%Z in
          pretty (num / den)%Z +:+ "." +:+
          zero_padded (Pos.to_nat q) (num mod den)%Z
      | _ => pretty (Z.pos m * 2 ^ e)%Z +:+ ".0"
      end
  end.

(** [lambda x: '%.1f' % x] on finite floats: one decimal, ties to
    even. *)
Definition percent_1f (x : float) : string :=
  match x with
  | S754_zero s => if s then "-0.0" else "0.0"
  | S754_infinity s => if s then "-inf" else "inf"
  | S754_nan => "nan"
  | S754_finite s m e =>
      let tenths :=
        match e with
        | Zneg q =>
            let num := (Z.pos m * 10)%Z in
            let den := (2 ^ Z.pos q)%Z in
            let q0 := (num / den)%Z in
            let r := (num mod den)%Z in
            if (2 * r <? den)%Z then q0
            else if (den <? 2 * r)%Z then (q0 + 1)%Z
            else if Z.even q0 then q0 else (q0 + 1)%Z
        | _ => (Z.pos m * 2 ^ e * 10)%Z
        end in
      (if s then "-" else "") +:+
      pretty (tenths / 10)%Z +:+ "." +:+ pretty (tenths mod 10)%Z
  end.

(** How a template writes a placeholder's value: [str(v)]. *)
Definition show (v : value) : string :=
  match v with
  | VNone => "None"
  | VBool true => "True"
  | VBool false => "False"
  | VInt z => str_int z
  | VFloat x => float_repr x
  | VStr s => s
  | VList _ => "[...]"
  end.

Definition field (kw : dict) (key : string) : string :=
  show (dict_get kw key).

(** A small template set in the style of the Java templates. *)
Definition templates : Environment := fun name =>
  if String.eqb name "int" then Some {| render := fun _ => "int" |}
  else if String.eqb name "double"
  then Some {| render := fun _ => "double" |}
  else if String.eqb name "arr[]"
  then Some {| render := fun kw =>
         field kw "type" +:+ "[] " +:+ field kw "name" +:+ " = {" +:+
         field kw "values" +:+ "};" |}
  else if String.eqb name "arr[][]"
  then Some {| render := fun kw =>
         field kw "type" +:+ "[][] " +:+ field kw "name" +:+ " = {" +:+
         field kw "values" +:+ "};" |}
  else if String.eqb name "in_brackets"
  then Some {| render := fun kw => "{" +:+ field kw "value" +:+ "}" |}
  else if String.eqb name "attached.class"
  then Some {| render := fun kw =>
         "class " +:+ field kw "class_name" +:+ " { " +:+
         field kw "X" +:+ " " +:+ field kw "y" +:+
         " int k = " +:+ field kw "k" +:+
         "; int n = " +:+ field kw "n" +:+
         "; double power = " +:+ field kw "power" +:+
         "; " +:+ field kw "method_name" +:+ "(); }" |}
  else if String.eqb name "exported.class"
  then Some {| render := fun kw =>
         "class " +:+ field kw "class_name" +:+ " { load(); " +:+
         field kw "method_name" +:+ "(); }" |}
  else None.

Definition _load_templates (key : string) : Environment :=
  if String.eqb key "java" then templates
  else if String.eqb key "js" then templates
  else fun _ => None.

Definition base_placeholders : dict :=
  dict_of [("estimator_name", VStr "KNeighborsClassifier")].

(** 0.25, 1.5 and 2.0 *)
Definition quarter : float := S754_finite false 1 (-2).
Definition one_and_half : float := S754_finite false 3 (-1).
Definition two : float := S754_finite false 1 1.

(** A fitted estimator: two examples with two features, two classes. *)
Definition fitted : Estimator := {|
  qualname := "KNeighborsClassifier";
  classes_ := Some [VInt 0; VInt 1];
  weights := WeightsStr "uniform";
  _fit_X := [[quarter; one_and_half]; [two; quarter]];
  _y := [0%Z; 1%Z];
  n_neighbors := 1;
  p := 2;
  metric := "minkowski"
|}.

Definition unfitted : Estimator := {|
  qualname := "KNeighborsClassifier";
  classes_ := None;
  weights := WeightsStr "uniform";
  _fit_X := [];
  _y := [];
  n_neighbors := 5;
  p := 2;
  metric := "minkowski"
|}.

Definition distance_weighted : Estimator := {|
  qualname := "KNeighborsClassifier";
  classes_ := Some [VInt 0; VInt 1];
  weights := WeightsStr "distance";
  _fit_X := [[quarter; one_and_half]; [two; quarter]];
  _y := [0%Z; 1%Z];
  n_neighbors := 1;
  p := 2;
  metric := "minkowski"
|}.

(** The interpreter at start-up: nothing allocated, the encoder's
    [FLOAT_REPR] is [float.__repr__], nothing observed yet. *)
Definition initial : state := {|
  heap := [];
  FLOAT_REPR := fun o => inr (float_repr o);
  trace := []
|}.

Definition with_converter (c : float -> string) : kwargs :=
  {| class_name := Some (VStr "KNN"); method_name := None;
     converter := Some c |}.

Definition without_converter : kwargs :=
  {| class_name := Some (VStr "KNN"); method_name := None;
     converter := None |}.

Definition init := __init__ false base_placeholders.
Definition run_port := port float_repr _load_templates.
Definition run := construct_and_port float_repr false base_placeholders
                    _load_templates.

(** The adapter of [fitted], constructed in the initial state, and the
    state that the construction leaves. *)
Definition meta : MetaInfo :=
  {| n_classes := 2; n_templates := 2; n_features := 2;
     meta_metric := "minkowski" |}.

Definition data : ModelData :=
  {| X := [[quarter; one_and_half]; [two; quarter]];
     y := [0%Z; 1%Z]; k := 1; n := 2; power := 2 |}.

Definition self : Adapter :=
  {| estimator := fitted; estimator_name := "KNeighborsClassifier";
     placeholders := 0; meta_info := 1; model_data := 2 |}.

Definition ready : state :=
  {| heap := [ODict base_placeholders; OMetaInfo meta; OModelData data];
     FLOAT_REPR := fun o => inr (float_repr o);
     trace := init_events false |}.

(** A converter that writes every float as the same text. *)
Definition constant_converter : float -> string := fun _ => "c".

(** 0.1875, which ['%.1f'] writes like 0.25, and a second model that
    differs from [data] in that one cell, in a state where the encoder's
    [FLOAT_REPR] has been replaced and the trace is empty. *)
Definition three_sixteenths : float := S754_finite false 3 (-4).

Definition data_alt : ModelData :=
  {| X := [[three_sixteenths; one_and_half]; [two; quarter]];
     y := [0%Z; 1%Z]; k := 1; n := 2; power := 2 |}.

Definition ready_alt : state :=
  {| heap := [ODict base_placeholders; OMetaInfo meta; OModelData data_alt];
     FLOAT_REPR := call_converter None;
     trace := [] |}.

(** The data document of [data] as [json.dumps] writes it. *)
Definition document : string :=
  "{" +:+ quoted "X" +:+ ":[[0.25,1.5],[2.0,0.25]]," +:+
  quoted "y" +:+ ":[0,1]," +:+ quoted "k" +:+ ":1," +:+
  quoted "n" +:+ ":2," +:+ quoted "power" +:+ ":2}".

(** A fitted estimator without a training example. *)
Definition no_examples : Estimator :=
  {| qualname := "KNeighborsClassifier";
     classes_ := Some [VInt 0];
     weights := WeightsStr "uniform";
     _fit_X := []; _y := []; n_neighbors := 5; p := 2;
     metric := "minkowski" |}.

(** A request that names neither the class nor the method. *)
Definition unnamed : kwargs :=
  {| class_name := None; method_name := None;
     converter := Some float_repr |}.

(** The template sets with one template taken out. *)
Definition templates_without (missing : string) (key : string)
  : Environment :=
  fun name => if String.eqb name missing then None
              else _load_templates key name.

(** A model of two examples without features, in an adapter's state. *)
Definition data_featureless : ModelData :=
  {| X := [[]; []]; y := [0%Z; 1%Z]; k := 1; n := 2; power := 2 |}.

Definition ready_featureless : state :=
  {| heap := [ODict base_placeholders; OMetaInfo meta;
              OModelData data_featureless];
     FLOAT_REPR := fun o => inr (float_repr o);
     trace := [] |}.

End Sample.

(** * Properties *)

(** ** Running the primitives *)

Lemma run_bind {A B : Type} (c : M A) (f : A -> M B) (s : state) :
  (c ≫= f) s =
  match c s with
  | (inl e, s') => (inl e, s')
  | (inr a, s') => f a s'
  end.
Proof. reflexivity. Qed.

Lemma lookup_fresh (h : list object) (o : object) :
  (h ++ [o]) !! length h = Some o.
Proof. by rewrite lookup_app_r, Nat.sub_diag by lia. Qed.

Lemma insert_fresh (h : list object) (o o' : object) :
  <[length h := o']> (h ++ [o]) = h ++ [o'].
Proof. by rewrite insert_app_r_alt, Nat.sub_diag by lia. Qed.

Lemma lookup_old (h : list object) (o x : object) (l : loc) :
  h !! l = Some x -> (h ++ [o]) !! l = Some x.
Proof. intros H. rewrite lookup_app_l; [done | by eapply lookup_lt_Some]. Qed.

Section Runs.
Variables (h : list object) (f : float -> exn + string) (tr : list event).

Lemma emit_run (e : event) :
  emit e {| heap := h; FLOAT_REPR := f; trace := tr |} =
  (inr tt, {| heap := h; FLOAT_REPR := f; trace := tr ++ [e] |}).
Proof. reflexivity. Qed.

Lemma lift_run {A : Type} (r : exn + A) (s : state) :
  lift r s = (r, s).
Proof. by destruct r. Qed.

Lemma deepcopy_run (l : loc) (d : dict) :
  h !! l = Some (ODict d) ->
  deepcopy l {| heap := h; FLOAT_REPR := f; trace := tr |} =
  (inr (length h),
   {| heap := h ++ [ODict d]; FLOAT_REPR := f; trace := tr |}).
Proof.
  intros H. unfold deepcopy. rewrite run_bind. unfold load_dict. cbn.
  by rewrite H.
Qed.

Lemma load_fresh_run (d : dict) :
  load_dict (length h)
    {| heap := h ++ [ODict d]; FLOAT_REPR := f; trace := tr |} =
  (inr d, {| heap := h ++ [ODict d]; FLOAT_REPR := f; trace := tr |}).
Proof. unfold load_dict. cbn. by rewrite lookup_fresh. Qed.

Lemma update_fresh_run (d other : dict) :
  update_at (length h) other
    {| heap := h ++ [ODict d]; FLOAT_REPR := f; trace := tr |} =
  (inr tt, {| heap := h ++ [ODict (dict_update d other)];
              FLOAT_REPR := f; trace := tr |}).
Proof.
  unfold update_at. rewrite run_bind, load_fresh_run.
  unfold store. cbn. by rewrite insert_fresh.
Qed.

Lemma load_meta_info_run (l : loc) (x : object) (m : MetaInfo) :
  h !! l = Some (OMetaInfo m) ->
  load_dict l {| heap := h ++ [x]; FLOAT_REPR := f; trace := tr |} =
  (inr (meta_info_items m),
   {| heap := h ++ [x]; FLOAT_REPR := f; trace := tr |}).
Proof.
  intros H. unfold load_dict. cbn. by rewrite (lookup_old _ _ _ _ H).
Qed.

Lemma load_model_items_run (l : loc) (x : object) (d : ModelData) :
  h !! l = Some (OModelData d) ->
  load_dict l {| heap := h ++ [x]; FLOAT_REPR := f; trace := tr |} =
  (inr (model_data_items d),
   {| heap := h ++ [x]; FLOAT_REPR := f; trace := tr |}).
Proof.
  intros H. unfold load_dict. cbn. by rewrite (lookup_old _ _ _ _ H).
Qed.

Lemma load_model_data_run (l : loc) (x : object) (d : ModelData) :
  h !! l = Some (OModelData d) ->
  load_model_data l {| heap := h ++ [x]; FLOAT_REPR := f; trace := tr |} =
  (inr d, {| heap := h ++ [x]; FLOAT_REPR := f; trace := tr |}).
Proof.
  intros H. unfold load_model_data. cbn. by rewrite (lookup_old _ _ _ _ H).
Qed.

Lemma get_template_run (tpls : Environment) (name : string) :
  get_template tpls name {| heap := h; FLOAT_REPR := f; trace := tr |} =
  (find_template tpls name,
   {| heap := h; FLOAT_REPR := f; trace := tr ++ [EvGetTemplate name] |}).
Proof.
  unfold get_template. rewrite run_bind, emit_run. apply lift_run.
Qed.

Lemma set_FLOAT_REPR_run (g : float -> exn + string) :
  set_FLOAT_REPR g {| heap := h; FLOAT_REPR := f; trace := tr |} =
  (inr tt, {| heap := h; FLOAT_REPR := g; trace := tr |}).
Proof. reflexivity. Qed.

End Runs.

Lemma exn_bind_inr {A B : Type} (a : A) (k : A -> exn + B) :
  (inr a ≫= k) = k a.
Proof. reflexivity. Qed.

Ltac run_with lem := rewrite run_bind, lem; cbv beta iota.

Ltac stop_here :=
  eexists _, _; split; [rewrite <- ?app_assoc; reflexivity | reflexivity].

(** ** [port] returns [port_result]

    The adapter is well formed in a heap when its three references point
    to a placeholder dictionary, a meta information and a model data. *)


Section PortRun.
Variables (float_repr : float -> string) (lt : string -> Environment).
Variables (self : Adapter) (ph : dict) (mi : MetaInfo) (md : ModelData).
Variables (h : list object).
Hypothesis Hph : h !! placeholders self = Some (ODict ph).
Hypothesis Hmi : h !! meta_info self = Some (OMetaInfo mi).
Hypothesis Hmd : h !! model_data self = Some (OModelData md).

Lemma port_exported_run tpls plas kw f tr :
  port_exported float_repr self tpls (length h) kw
    {| heap := h ++ [ODict plas]; FLOAT_REPR := f; trace := tr |} =
  (exported_result float_repr tpls plas md,
   {| heap := h ++ [ODict plas];
      FLOAT_REPR := match tpls "exported.class" with
                    | Some _ => call_converter (converter kw)
                    | None => f
                    end;
      trace := tr ++ [EvGetTemplate "exported.class"] |}).
Proof.
  unfold port_exported, exported_result.
  rewrite run_bind, get_template_run. unfold find_template.
  destruct (tpls "exported.class") as [tc|]; cbv beta iota; [|done].
  run_with load_fresh_run.
  run_with set_FLOAT_REPR_run.
  run_with (load_model_items_run h (call_converter (converter kw))
              (tr ++ [EvGetTemplate "exported.class"]) _ (ODict plas) _ Hmd).
  reflexivity.
Qed.

Lemma port_attached_run tpls plas conv f tr :
  exists d evs,
  port_attached self tpls (length h) conv
    {| heap := h ++ [ODict plas]; FLOAT_REPR := f; trace := tr |} =
  (attached_result tpls plas md conv,
   {| heap := h ++ [ODict d]; FLOAT_REPR := f; trace := tr ++ evs |}) /\
  forallb template_event evs = true.
Proof.
  unfold port_attached, attached_result.
  do 5 (rewrite run_bind, get_template_run;
        destruct (find_template tpls _) as [?|?]; cbv beta iota;
        [ stop_here | rewrite exn_bind_inr ]).
  rewrite run_bind; erewrite load_model_data_run by exact Hmd;
    cbv beta iota.
  rewrite run_bind, lift_run.
  destruct (render_X _ _ _ _ _) as [?|x_str]; cbv beta iota;
    [ stop_here | rewrite exn_bind_inr ].
  rewrite run_bind, get_template_run;
    destruct (find_template tpls _) as [?|?]; cbv beta iota;
    [ stop_here | rewrite exn_bind_inr ].
  run_with update_fresh_run. run_with load_fresh_run.
  stop_here.
Qed.

Lemma port_start_run language template to_json kw f tr checked :
  check KNeighborsClassifier None language template = inr checked ->
  port float_repr lt self language template to_json kw
    {| heap := h; FLOAT_REPR := f; trace := tr |} =
  (if Template.eqb (snd checked) Template.EXPORTED
   then port_exported float_repr self
          (lt (Language.KEY (snd (fst checked)))) (length h)
          (setdefault_method_name kw
             (VStr (Method.value (fst (fst checked)))))
   else port_attached self (lt (Language.KEY (snd (fst checked))))
          (length h) (converter kw))
    {| heap := h ++ [ODict (request_placeholders ph mi (fst (fst checked))
                              to_json kw)];
       FLOAT_REPR := f;
       trace := tr ++ [EvLoadTemplates (Language.KEY (snd (fst checked)))] |}.
Proof.
  intros Hcheck. unfold port.
  rewrite run_bind, lift_run, Hcheck. cbv beta iota zeta.
  run_with (deepcopy_run h f tr _ _ Hph).
  run_with update_fresh_run.
  rewrite run_bind; erewrite load_meta_info_run by exact Hmi;
    cbv beta iota.
  run_with update_fresh_run.
  rewrite run_bind. unfold load_templates. run_with emit_run.
  unfold mret, M_ret, ret. cbv beta iota.
  reflexivity.
Qed.

Lemma port_run language template to_json kw f tr :
  exists d evs,
  port float_repr lt self language template to_json kw
    {| heap := h; FLOAT_REPR := f; trace := tr |} =
  (port_result float_repr lt ph mi md language template to_json kw,
   {| heap := match check KNeighborsClassifier None language template with
              | inl _ => h
              | inr _ => h ++ [ODict d]
              end;
      FLOAT_REPR := FLOAT_REPR_after lt f language template kw;
      trace := tr ++ evs |}) /\
  forallb template_event evs = true.
Proof.
  destruct (check KNeighborsClassifier None language template)
    as [e|checked] eqn:Hcheck.
  { exists [], []. unfold port, port_result, FLOAT_REPR_after.
    rewrite run_bind, lift_run, Hcheck. by rewrite app_nil_r. }
  rewrite (port_start_run _ _ _ _ _ _ _ Hcheck).
  unfold port_result, FLOAT_REPR_after. rewrite Hcheck, exn_bind_inr.
  cbv zeta. destruct (Template.eqb (snd checked) Template.EXPORTED).
  - rewrite port_exported_run. stop_here.
  - destruct (port_attached_run (lt (Language.KEY (snd (fst checked))))
               (request_placeholders ph mi (fst (fst checked)) to_json kw)
               (converter kw) f
               (tr ++ [EvLoadTemplates (Language.KEY (snd (fst checked)))]))
      as (d & evs & -> & Hevs).
    exists d, (EvLoadTemplates (Language.KEY (snd (fst checked))) :: evs).
    split; [by rewrite <- app_assoc | exact Hevs].
Qed.

End PortRun.

(** ** Running [__init__] *)

Lemma weights_not_uniform_spec (w : weights_option) :
  weights_not_uniform w = true <-> w <> WeightsStr "uniform".
Proof.
  destruct w as [s|]; cbn; [|split; [discriminate | done]].
  rewrite negb_true_iff. split.
  - intros H [= ->]. discriminate.
  - intros H. apply String.eqb_neq. congruence.
Qed.

Ltac unfold_monad :=
  unfold lift, emit, alloc, mbind, M_bind, bind, mret, M_ret, ret, raise.

Lemma init_unfitted_run dbg bp est s :
  classes_ est = None ->
  __init__ dbg bp est s =
  (inl (NotFittedEstimatorError (qualname est)),
   {| heap := heap s ++ [ODict bp];
      FLOAT_REPR := FLOAT_REPR s;
      trace := trace s ++ [ EvSetAttr "estimator"; EvSetAttr "placeholders";
                            EvLog "Create specific estimator";
                            EvGetAttr "classes_" ] |}).
Proof.
  intros H. destruct s as [h f tr].
  unfold __init__, EstimatorBase__init__, try_except_AttributeError,
    get_classes_.
  unfold_monad. cbn. rewrite H. cbn. by rewrite <- !app_assoc.
Qed.

Lemma init_unsupported_run dbg bp est s cls :
  classes_ est = Some cls ->
  weights_not_uniform (weights est) = true ->
  __init__ dbg bp est s =
  (inl (NotSupportedYetError "Only `uniform` weights are supported."),
   {| heap := heap s ++ [ODict bp];
      FLOAT_REPR := FLOAT_REPR s;
      trace := trace s ++ [ EvSetAttr "estimator"; EvSetAttr "placeholders";
                            EvLog "Create specific estimator";
                            EvGetAttr "classes_"; EvGetAttr "weights" ] |}).
Proof.
  intros H Hw. destruct s as [h f tr].
  unfold __init__, EstimatorBase__init__, try_except_AttributeError,
    get_classes_, getattr.
  unfold_monad. cbn. rewrite H. cbn. rewrite Hw. cbn. by rewrite <- !app_assoc.
Qed.

Lemma init_run dbg bp est s cls row0 rest :
  classes_ est = Some cls ->
  weights_not_uniform (weights est) = false ->
  _fit_X est = row0 :: rest ->
  __init__ dbg bp est s =
  (inr {| estimator := est;
          estimator_name := qualname est;
          placeholders := length (heap s);
          meta_info := S (length (heap s));
          model_data := S (S (length (heap s))) |},
   {| heap := heap s ++
        [ ODict bp;
          OMetaInfo {| n_classes := len cls;
                       n_templates := len (_fit_X est);
                       n_features := len row0;
                       meta_metric := metric est |};
          OModelData {| X := _fit_X est; y := _y est;
                        k := n_neighbors est; n := len cls;
                        power := p est |} ];
      FLOAT_REPR := FLOAT_REPR s;
      trace := trace s ++ init_events dbg |}).
Proof.
  intros H Hw HX. destruct s as [h f tr].
  unfold __init__, EstimatorBase__init__, try_except_AttributeError,
    get_classes_, getattr, init_events.
  unfold_monad. cbn. rewrite H. cbn. rewrite Hw. cbn. rewrite HX. cbn.
  destruct dbg; cbn; rewrite <- !app_assoc, !length_app; cbn;
    rewrite ?Nat.add_1_r;
    replace (length h + 2) with (S (S (length h))) by lia; reflexivity.
Qed.

(** ** The capability check of [port] *)

Lemma lookup_language_Some (table : SupportTable) (l : Language.t)
  (modes : list (Template.t * list Method.t)) :
  lookup_language table l = Some modes ->
  exists l', In (l', modes) table /\ Language.eqb l' l = true.
Proof.
  induction table as [|[l0 modes0] table IH]; [discriminate|].
  cbn [lookup_language]. destruct (Language.eqb l0 l) eqn:E.
  - intros [= <-]. exists l0. split; [by left | exact E].
  - intros H. destruct (IH H) as (l' & Hin & Heq).
    exists l'. split; [by right | exact Heq].
Qed.

Lemma lookup_template_Some (modes : list (Template.t * list Method.t))
  (t : Template.t) (methods : list Method.t) :
  lookup_template modes t = Some methods ->
  exists t', In (t', methods) modes /\ Template.eqb t' t = true.
Proof.
  induction modes as [|[t0 methods0] modes IH]; [discriminate|].
  cbn [lookup_template]. destruct (Template.eqb t0 t) eqn:E.
  - intros [= <-]. exists t0. split; [by left | exact E].
  - intros H. destruct (IH H) as (t' & Hin & Heq).
    exists t'. split; [by right | exact Heq].
Qed.

(** Whatever the table, [check] answers with the request resolved by the
    defaults, and only when that triple is in the table. *)
Lemma check_accepts_only_supported (K : Kind)
  (method : option Method.t) (language : option Language.t)
  (template : option Template.t)
  (checked : Method.t * Language.t * Template.t) :
  check K method language template = inr checked ->
  checked = (default (DEFAULT_METHOD K) method,
             default (DEFAULT_LANGUAGE K) language,
             default (DEFAULT_TEMPLATE K) template) /\
  supportedb K (snd (fst checked)) (snd checked) (fst (fst checked)) = true.
Proof.
  unfold check, supportedb.
  destruct (lookup_language _ _) as [modes|] eqn:El; [|discriminate].
  destruct (lookup_template _ _) as [methods|] eqn:Et; [|discriminate].
  destruct (method_in _ _) eqn:Em; [|discriminate].
  intros [= <-]. split; [reflexivity|]. cbn [fst snd].
  apply existsb_exists.
  destruct (lookup_language_Some _ _ _ El) as (l' & Hin & Hl).
  exists (l', modes). split; [exact Hin|]. cbn [fst snd].
  rewrite Hl. cbn [andb]. apply existsb_exists.
  destruct (lookup_template_Some _ _ _ Et) as (t' & Hin' & Ht).
  exists (t', methods). split; [exact Hin'|]. cbn [fst snd].
  by rewrite Ht, Em.
Qed.

(** Whatever the table, a failing [check] raises a capability error, and
    the field it names is the first one that is not in the table. *)
Lemma check_names_offending_field (K : Kind)
  (method : option Method.t) (language : option Language.t)
  (template : option Template.t) (e : exn) :
  check K method language template = inl e ->
  let m := default (DEFAULT_METHOD K) method in
  let l := default (DEFAULT_LANGUAGE K) language in
  let t := default (DEFAULT_TEMPLATE K) template in
  (e = CapabilityError FieldLanguage /\
   lookup_language (SUPPORT K) l = None) \/
  (e = CapabilityError FieldTemplate /\
   exists modes, lookup_language (SUPPORT K) l = Some modes /\
                 lookup_template modes t = None) \/
  (e = CapabilityError FieldMethod /\
   exists modes methods,
     lookup_language (SUPPORT K) l = Some modes /\
     lookup_template modes t = Some methods /\
     method_in m methods = false).
Proof.
  intros H m l t. unfold check in H. cbv zeta in H. fold m l t in H.
  destruct (lookup_language (SUPPORT K) l) as [modes|];
    [|left; by inversion H].
  destruct (lookup_template modes t) as [methods|] eqn:Et;
    [|right; left; inversion H; eauto].
  destruct (method_in m methods) eqn:Em; [discriminate|].
  right; right. inversion H. eauto 6.
Qed.

(** ** Construction of the adapter *)

(** C2.  When the estimator has no [classes_], construction raises
    [NotFittedEstimatorError] right after the first read of [classes_]:
    the only object created is the placeholder dictionary, no attribute
    holding learned data or hyper-parameters has been read, neither
    [meta_info] nor [model_data] has been set and no template has been
    loaded.  Constructing and porting fails in the same way, in the same
    state. *)
Theorem unfitted_estimator_is_rejected
  (float_repr : float -> string) (debug_enabled : bool)
  (base_placeholders : dict) (lt : string -> Environment)
  (est : Estimator) (language : option Language.t)
  (template : option Template.t) (to_json : bool) (kw : kwargs)
  (s : state) :
  classes_ est = None ->
  let evs := construction_start ++ [EvGetAttr "classes_"] in
  let s' := {| heap := heap s ++ [ODict base_placeholders];
               FLOAT_REPR := FLOAT_REPR s;
               trace := trace s ++ evs |} in
  __init__ debug_enabled base_placeholders est s =
    (inl (NotFittedEstimatorError (qualname est)), s') /\
  construct_and_port float_repr debug_enabled base_placeholders lt est
    language template to_json kw s =
    (inl (NotFittedEstimatorError (qualname est)), s') /\
  forallb (fun e => negb (extraction_event e || template_event e)) evs
    = true.
Proof.
  intros H evs s'.
  pose proof (init_unfitted_run debug_enabled base_placeholders est s H)
    as Hrun.
  split; [exact Hrun|]. split; [|reflexivity].
  unfold construct_and_port. rewrite run_bind, Hrun. reflexivity.
Qed.

Lemma unfitted_estimator_is_rejected_witness :
  classes_ Sample.unfitted = None /\
  Sample.run Sample.unfitted None None false Sample.without_converter
    Sample.initial =
  (inl (NotFittedEstimatorError "KNeighborsClassifier"),
   {| heap := [ODict Sample.base_placeholders];
      FLOAT_REPR := FLOAT_REPR Sample.initial;
      trace := construction_start ++ [EvGetAttr "classes_"] |}).
Proof.
  split; [reflexivity|].
  exact (proj1 (proj2 (unfitted_estimator_is_rejected
    Sample.float_repr false Sample.base_placeholders Sample._load_templates
    Sample.unfitted None None false Sample.without_converter Sample.initial
    eq_refl))).
Defined.

(** C3.  When the estimator is fitted and its [weights] is not
    ['uniform'], construction raises [NotSupportedYetError] with a
    message naming the option, right after reading [weights]: nothing of
    the learned data or of the other hyper-parameters has been read and
    neither [meta_info] nor [model_data] has been set. *)
Theorem non_uniform_weights_are_rejected
  (debug_enabled : bool) (base_placeholders : dict)
  (est : Estimator) (cls : list value) (s : state) :
  classes_ est = Some cls ->
  weights est <> WeightsStr "uniform" ->
  let evs := construction_start ++
             [EvGetAttr "classes_"; EvGetAttr "weights"] in
  __init__ debug_enabled base_placeholders est s =
    (inl (NotSupportedYetError "Only `uniform` weights are supported."),
     {| heap := heap s ++ [ODict base_placeholders];
        FLOAT_REPR := FLOAT_REPR s;
        trace := trace s ++ evs |}) /\
  forallb (fun e => negb (extraction_event e || template_event e)) evs
    = true.
Proof.
  intros Hc Hw evs. split; [|reflexivity].
  apply (init_unsupported_run _ _ _ _ cls Hc).
  by apply weights_not_uniform_spec.
Qed.

Lemma non_uniform_weights_are_rejected_witness :
  classes_ Sample.distance_weighted = Some [VInt 0; VInt 1] /\
  weights Sample.distance_weighted <> WeightsStr "uniform" /\
  fst (Sample.init Sample.distance_weighted Sample.initial) =
  inl (NotSupportedYetError "Only `uniform` weights are supported.").
Proof.
  assert (Hw : weights Sample.distance_weighted <> WeightsStr "uniform")
    by discriminate.
  split; [reflexivity|]. split; [exact Hw|].
  exact (f_equal fst (proj1 (non_uniform_weights_are_rejected
    false Sample.base_placeholders Sample.distance_weighted
    [VInt 0; VInt 1] Sample.initial eq_refl Hw))).
Defined.

(** C6.  For a fitted estimator with uniform weights and at least one
    training example, construction succeeds and the meta information it
    stores has [n_classes] equal to the number of class labels,
    [n_templates] equal to the number of rows of [_fit_X] and
    [n_features] equal to the number of columns of its first row. *)
Theorem meta_info_counts
  (debug_enabled : bool) (base_placeholders : dict)
  (est : Estimator) (cls : list value)
  (row0 : list float) (rest : list (list float)) (s : state) :
  classes_ est = Some cls ->
  weights est = WeightsStr "uniform" ->
  _fit_X est = row0 :: rest ->
  exists self s' mi,
    __init__ debug_enabled base_placeholders est s = (inr self, s') /\
    heap s' !! meta_info self = Some (OMetaInfo mi) /\
    n_classes mi = Z.of_nat (length cls) /\
    n_templates mi = Z.of_nat (length (_fit_X est)) /\
    n_features mi = Z.of_nat (length row0).
Proof.
  intros Hc Hw HX.
  eexists _, _, _. split.
  - apply (init_run _ _ _ _ cls row0 rest Hc); [|exact HX].
    by rewrite Hw.
  - cbn. split.
    + rewrite lookup_app_r by lia.
      replace (S (length (heap s)) - length (heap s))%nat with 1%nat
        by lia.
      reflexivity.
    + done.
Qed.

Lemma meta_info_counts_witness :
  exists self s' mi,
    Sample.init Sample.fitted Sample.initial = (inr self, s') /\
    heap s' !! meta_info self = Some (OMetaInfo mi) /\
    n_classes mi = 2%Z /\ n_templates mi = 2%Z /\ n_features mi = 2%Z.
Proof.
  exact (meta_info_counts false Sample.base_placeholders Sample.fitted
           [VInt 0; VInt 1] [Sample.quarter; Sample.one_and_half]
           [[Sample.two; Sample.quarter]] Sample.initial
           eq_refl eq_refl eq_refl).
Defined.

(** ** What [port] reads and what it leaves behind *)

Lemma sample_well_formed :
  well_formed Sample.self Sample.ready Sample.base_placeholders
    Sample.meta Sample.data.
Proof. repeat split. Qed.

Lemma sample_constructed :
  Sample.init Sample.fitted Sample.initial = (inr Sample.self, Sample.ready).
Proof. reflexivity. Qed.

Section PortFacts.
Variables (float_repr : float -> string) (lt : string -> Environment).
Variables (self : Adapter) (ph : dict) (mi : MetaInfo) (md : ModelData).

Lemma port_fst language template to_json kw s :
  well_formed self s ph mi md ->
  fst (port float_repr lt self language template to_json kw s) =
  port_result float_repr lt ph mi md language template to_json kw.
Proof.
  intros (Hph & Hmi & Hmd). destruct s as [h f tr].
  destruct (port_run float_repr lt self ph mi md h Hph Hmi Hmd
              language template to_json kw f tr) as (d & evs & -> & _).
  reflexivity.
Qed.

Lemma port_heap language template to_json kw s :
  well_formed self s ph mi md ->
  exists extra,
    heap (snd (port float_repr lt self language template to_json kw s)) =
    heap s ++ extra.
Proof.
  intros (Hph & Hmi & Hmd). destruct s as [h f tr].
  destruct (port_run float_repr lt self ph mi md h Hph Hmi Hmd
              language template to_json kw f tr) as (d & evs & -> & _).
  cbn. destruct (check _ _ _ _).
  - exists []. by rewrite app_nil_r.
  - by eexists.
Qed.

Lemma port_FLOAT_REPR language template to_json kw s :
  well_formed self s ph mi md ->
  FLOAT_REPR (snd (port float_repr lt self language template to_json kw s))
  = FLOAT_REPR_after lt (FLOAT_REPR s) language template kw.
Proof.
  intros (Hph & Hmi & Hmd). destruct s as [h f tr].
  destruct (port_run float_repr lt self ph mi md h Hph Hmi Hmd
              language template to_json kw f tr) as (d & evs & -> & _).
  reflexivity.
Qed.

Lemma port_trace language template to_json kw s :
  well_formed self s ph mi md ->
  exists evs,
    trace (snd (port float_repr lt self language template to_json kw s)) =
    trace s ++ evs /\
    forallb template_event evs = true.
Proof.
  intros (Hph & Hmi & Hmd). destruct s as [h f tr].
  destruct (port_run float_repr lt self ph mi md h Hph Hmi Hmd
              language template to_json kw f tr) as (d & evs & -> & Hevs).
  by exists evs.
Qed.

Lemma port_keeps_objects language template to_json kw s l o :
  well_formed self s ph mi md ->
  heap s !! l = Some o ->
  heap (snd (port float_repr lt self language template to_json kw s)) !! l
  = Some o.
Proof.
  intros Hwf Hl.
  destruct (port_heap language template to_json kw s Hwf) as [extra ->].
  rewrite lookup_app_l; [done | by eapply lookup_lt_Some].
Qed.

Lemma port_keeps_well_formed language template to_json kw s :
  well_formed self s ph mi md ->
  well_formed self
    (snd (port float_repr lt self language template to_json kw s))
    ph mi md.
Proof.
  intros Hwf. pose proof Hwf as (Hph & Hmi & Hmd).
  repeat split; by apply port_keeps_objects.
Qed.
End PortFacts.

Lemma resolved_attached language template checked :
  template = None \/ template = Some Template.ATTACHED ->
  check KNeighborsClassifier None language template = inr checked ->
  Template.eqb (snd checked) Template.EXPORTED = false.
Proof.
  intros [-> | ->]; destruct language as [[| |key]|]; cbn;
    intros [= <-]; reflexivity.
Qed.

Lemma FLOAT_REPR_after_attached lt f language template kw :
  template = None \/ template = Some Template.ATTACHED ->
  FLOAT_REPR_after lt f language template kw = f.
Proof.
  intros Ht. unfold FLOAT_REPR_after.
  destruct (check _ _ _ _) as [e|checked] eqn:E; [done|].
  by rewrite (resolved_attached _ _ _ Ht E).
Qed.

Lemma port_result_exported_success float_repr lt ph mi md
  language template to_json kw out_class document :
  port_result float_repr lt ph mi md language template to_json kw =
    inr (SourceAndData out_class document) ->
  forall f, FLOAT_REPR_after lt f language template kw =
    call_converter (converter kw).
Proof.
  unfold port_result, FLOAT_REPR_after.
  destruct (check _ _ _ _) as [e|checked]; [discriminate|].
  rewrite exn_bind_inr. cbv zeta.
  destruct (Template.eqb _ _).
  - unfold exported_result, find_template.
    destruct (lt _ "exported.class"); [done | discriminate].
  - unfold attached_result.
    repeat match goal with
      | |- context [find_template ?a ?b ≫= _] =>
          destruct (find_template a b); [discriminate | rewrite exn_bind_inr]
      | |- context [render_X ?a ?b ?c ?d ?e ≫= _] =>
          destruct (render_X a b c d e);
          [discriminate | rewrite exn_bind_inr]
      end.
    discriminate.
Qed.

(** ** The request that [port] acts on *)

Lemma supportedb_KNeighborsClassifier (l : Language.t) (t : Template.t) :
  supportedb KNeighborsClassifier l t Method.PREDICT =
  match l with Language.OTHER _ => false | _ => true end.
Proof. by destruct l, t. Qed.

Lemma check_supported language template :
  let l := default Language.JAVA language in
  let t := default Template.ATTACHED template in
  supportedb KNeighborsClassifier l t Method.PREDICT = true ->
  check KNeighborsClassifier None language template =
    inr (Method.PREDICT, l, t).
Proof. by destruct language as [[| |key]|], template as [[|]|]. Qed.

(** C1.  [port] passes the language and the template mode it was given to
    [check] and lets the method default.  Omitted fields are replaced by
    the declared defaults (Java, Attached, Predict).  The resolved triple
    is validated against [SUPPORT].  When it is in the table, [check]
    yields exactly that triple and [port] goes on with it and with no
    other: on a well-formed adapter it loads the templates of the
    resolved language, by its [KEY], takes the branch of the resolved
    template mode and fills ['predict'] in for a method name that was not
    given, so that its result is the exported or the attached result for
    that language.  When the triple is not in the table, the language is
    absent from it and [port] raises a capability error naming the
    language, leaving the state as it was and producing no output. *)
Theorem port_checks_resolved_request
  (float_repr : float -> string) (lt : string -> Environment)
  (self : Adapter) (ph : dict) (mi : MetaInfo) (md : ModelData)
  (language : option Language.t)
  (template : option Template.t) (to_json : bool) (kw : kwargs)
  (s : state) :
  let l := default Language.JAVA language in
  let t := default Template.ATTACHED template in
  let plas := request_placeholders ph mi Method.PREDICT to_json kw in
  check KNeighborsClassifier None language template =
    check KNeighborsClassifier (Some Method.PREDICT) (Some l) (Some t) /\
  if supportedb KNeighborsClassifier l t Method.PREDICT
  then check KNeighborsClassifier None language template =
         inr (Method.PREDICT, l, t) /\
       (well_formed self s ph mi md ->
        port float_repr lt self language template to_json kw s =
          (if Template.eqb t Template.EXPORTED
           then port_exported float_repr self (lt (Language.KEY l))
                  (length (heap s))
                  (setdefault_method_name kw (VStr "predict"))
           else port_attached self (lt (Language.KEY l))
                  (length (heap s)) (converter kw))
            {| heap := heap s ++ [ODict plas];
               FLOAT_REPR := FLOAT_REPR s;
               trace := trace s ++ [EvLoadTemplates (Language.KEY l)] |} /\
        fst (port float_repr lt self language template to_json kw s) =
          if Template.eqb t Template.EXPORTED
          then exported_result float_repr (lt (Language.KEY l)) plas md
          else attached_result (lt (Language.KEY l)) plas md (converter kw))
  else check KNeighborsClassifier None language template =
         inl (CapabilityError FieldLanguage) /\
       lookup_language (SUPPORT KNeighborsClassifier) l = None /\
       port float_repr lt self language template to_json kw s =
         (inl (CapabilityError FieldLanguage), s).
Proof.
  intros l t plas.
  split; [by destruct language as [[| |key]|], template as [[|]|]|].
  destruct (supportedb KNeighborsClassifier l t Method.PREDICT) eqn:Hs.
  - pose proof (check_supported language template Hs) as Hcheck.
    fold l t in Hcheck. split; [exact Hcheck|].
    intros (Hph & Hmi & Hmd). split.
    + destruct s as [h f tr]. cbn [heap FLOAT_REPR trace] in *.
      exact (port_start_run float_repr lt self ph mi h Hph Hmi
               language template to_json kw f tr _ Hcheck).
    + rewrite (port_fst float_repr lt self ph mi md) by done.
      unfold port_result. by rewrite Hcheck, exn_bind_inr.
  - rewrite supportedb_KNeighborsClassifier in Hs.
    subst l t. destruct language as [[| |key]|]; try discriminate.
    by destruct template as [[|]|].
Qed.

Lemma port_checks_resolved_request_witness :
  well_formed Sample.self Sample.ready Sample.base_placeholders
    Sample.meta Sample.data /\
  trace (snd (Sample.run_port Sample.self (Some Language.JS) None false
                Sample.unnamed Sample.ready)) =
  trace Sample.ready ++
    [ EvLoadTemplates "js"; EvGetTemplate "int"; EvGetTemplate "double";
      EvGetTemplate "arr[]"; EvGetTemplate "arr[][]";
      EvGetTemplate "in_brackets"; EvGetTemplate "attached.class" ] /\
  fst (Sample.run_port Sample.self (Some Language.JS)
         (Some Template.EXPORTED) false Sample.unnamed Sample.ready) =
  inr (SourceAndData "class None { load(); predict(); }" Sample.document).
Proof.
  split; [exact sample_well_formed|]. split.
  - exact (f_equal (fun r => trace (snd r))
      (proj1 (proj2 (proj2 (port_checks_resolved_request
        Sample.float_repr Sample._load_templates Sample.self
        Sample.base_placeholders Sample.meta Sample.data
        (Some Language.JS) None false Sample.unnamed Sample.ready))
        sample_well_formed))).
  - exact (proj2 (proj2 (proj2 (port_checks_resolved_request
      Sample.float_repr Sample._load_templates Sample.self
      Sample.base_placeholders Sample.meta Sample.data
      (Some Language.JS) (Some Template.EXPORTED) false Sample.unnamed
      Sample.ready)) sample_well_formed)).
Defined.

(** ** Repeated calls *)

(** C5.  Porting twice with the same request gives the same output: the
    second call, run in the state that the first call left (one more
    placeholder dictionary in the heap, a longer trace and, after an
    exported port, another [FLOAT_REPR]), returns what the first returned;
    and so does a call from any other state in which the adapter's three
    dictionaries are the same. *)
Theorem port_twice_same_output
  (float_repr : float -> string) (lt : string -> Environment)
  (self : Adapter) (ph : dict) (mi : MetaInfo) (md : ModelData)
  (language : option Language.t) (template : option Template.t)
  (to_json : bool) (kw : kwargs) (s : state) :
  well_formed self s ph mi md ->
  let first := port float_repr lt self language template to_json kw s in
  let second :=
    port float_repr lt self language template to_json kw (snd first) in
  fst second = fst first /\
  forall s', well_formed self s' ph mi md ->
    fst (port float_repr lt self language template to_json kw s') =
    fst first.
Proof.
  intros Hwf first second. split.
  - unfold second, first.
    rewrite (port_fst float_repr lt self ph mi md) by
      by apply port_keeps_well_formed.
    by rewrite (port_fst float_repr lt self ph mi md).
  - intros s' Hwf'. unfold first.
    by rewrite !(port_fst float_repr lt self ph mi md).
Qed.

Lemma port_twice_same_output_witness :
  well_formed Sample.self Sample.ready Sample.base_placeholders
    Sample.meta Sample.data /\
  let first := Sample.run_port Sample.self (Some Language.JS)
                 (Some Template.EXPORTED) false
                 (Sample.with_converter Sample.percent_1f) Sample.ready in
  fst (Sample.run_port Sample.self (Some Language.JS)
         (Some Template.EXPORTED) false
         (Sample.with_converter Sample.percent_1f) (snd first)) = fst first.
Proof.
  split; [exact sample_well_formed|].
  exact (proj1 (port_twice_same_output Sample.float_repr
    Sample._load_templates Sample.self Sample.base_placeholders Sample.meta
    Sample.data (Some Language.JS) (Some Template.EXPORTED) false
    (Sample.with_converter Sample.percent_1f) Sample.ready
    sample_well_formed)).
Defined.

(** ** The frame of [port] *)

(** C9, as the code has it.  A [port] call leaves every object that
    existed before it as it was, in particular the adapter's placeholder
    dictionary, its meta information and its model data; the placeholder
    mapping it fills is a new object.  Its result is a function of those
    three objects, the request and the templates.  In the attached mode
    the encoder's [FLOAT_REPR] is left as it was; an exported port that
    returns has replaced it by a call of the request's converter.  All
    that a call adds to the trace is the loading and fetching of
    templates: the wrapped estimator is neither read nor written. *)
Theorem port_frame
  (float_repr : float -> string) (lt : string -> Environment)
  (self : Adapter) (ph : dict) (mi : MetaInfo) (md : ModelData)
  (language : option Language.t) (template : option Template.t)
  (to_json : bool) (kw : kwargs) (s : state) :
  well_formed self s ph mi md ->
  let result := fst (port float_repr lt self language template to_json kw s) in
  let s' := snd (port float_repr lt self language template to_json kw s) in
  (forall l o, heap s !! l = Some o -> heap s' !! l = Some o) /\
  well_formed self s' ph mi md /\
  result = port_result float_repr lt ph mi md language template to_json kw /\
  (template = None \/ template = Some Template.ATTACHED ->
   FLOAT_REPR s' = FLOAT_REPR s) /\
  (forall out_class document,
     result = inr (SourceAndData out_class document) ->
     FLOAT_REPR s' = call_converter (converter kw)) /\
  (exists evs,
     trace s' = trace s ++ evs /\ forallb template_event evs = true).
Proof.
  intros Hwf result s'. unfold result, s'.
  split; [intros l o; by apply port_keeps_objects with ph mi md|].
  split; [by apply port_keeps_well_formed|].
  split; [by apply port_fst|].
  pose proof (port_trace float_repr lt self ph mi md language template
                to_json kw s Hwf) as Htrace.
  rewrite (port_FLOAT_REPR float_repr lt self ph mi md) by done.
  rewrite (port_fst float_repr lt self ph mi md) by done.
  split; [apply FLOAT_REPR_after_attached|].
  split; [|exact Htrace].
  intros out_class document H.
  by apply (port_result_exported_success _ _ _ _ _ _ _ _ _ _ _ H).
Qed.

Lemma port_frame_witness :
  well_formed Sample.self Sample.ready Sample.base_placeholders
    Sample.meta Sample.data /\
  heap (snd (Sample.run_port Sample.self None None false
               (Sample.with_converter Sample.float_repr) Sample.ready))
    !! model_data Sample.self = Some (OModelData Sample.data).
Proof.
  split; [exact sample_well_formed|].
  exact (proj1 (port_frame Sample.float_repr
    Sample._load_templates Sample.self Sample.base_placeholders Sample.meta
    Sample.data None None false
    (Sample.with_converter Sample.float_repr) Sample.ready
    sample_well_formed) 2%nat (OModelData Sample.data) eq_refl).
Defined.

(** C9, as stated, does not hold: an exported port replaces the
    process-global [json.encoder.FLOAT_REPR].  Before the call it writes
    0.25 as float.__repr__ does, after the call as the request's
    converter does. *)
Lemma port_exported_replaces_FLOAT_REPR :
  let s' := snd (Sample.run_port Sample.self (Some Language.JAVA)
                   (Some Template.EXPORTED) false
                   (Sample.with_converter Sample.percent_1f)
                   Sample.ready) in
  FLOAT_REPR s' Sample.quarter <> FLOAT_REPR Sample.ready Sample.quarter.
Proof. vm_compute. discriminate. Qed.

(** ** The inline literals of the attached class *)

Lemma rows_in_brackets_spec in_brackets convert rows :
  rows_in_brackets in_brackets (Some convert) rows =
  inr (map (bracketed_row in_brackets convert) rows).
Proof.
  induction rows as [|row rows IH]; [reflexivity|].
  cbn [rows_in_brackets map]. rewrite IH. reflexivity.
Qed.

Lemma render_X_spec arr_2 in_brackets type convert row0 rest :
  render_X arr_2 in_brackets type (Some convert) (row0 :: rest) =
  inr (matrix_literal arr_2 in_brackets type "X" convert (row0 :: rest)).
Proof.
  unfold render_X. rewrite rows_in_brackets_spec. reflexivity.
Qed.

Lemma render_y_spec arr_1 type labels :
  render_y arr_1 type labels = vector_literal arr_1 type "y" labels.
Proof.
  unfold render_y, vector_literal, y_val, len. by rewrite length_map.
Qed.

Lemma render_X_without_converter arr_2 in_brackets type x row0 rest :
  render_X arr_2 in_brackets type None ((x :: row0) :: rest) =
  inl (TypeError "'NoneType' object is not callable").
Proof. reflexivity. Qed.


Lemma render_X_cells arr_2 in_brackets type convert rows :
  render_X arr_2 in_brackets type (Some convert) rows =
  literal_of_cells arr_2 in_brackets type (map (map convert) rows).
Proof.
  unfold render_X, literal_of_cells. rewrite rows_in_brackets_spec.
  destruct rows as [|row0 rest]; [reflexivity|].
  cbn [first_row map]. unfold len.
  rewrite !length_cons, !length_map. rewrite map_map. reflexivity.
Qed.

(** C7.  In the attached mode, with a converter and all templates at
    hand, [port] returns the attached class rendered with [X] bound to the
    matrix literal of the spec (each row converted cell by cell, joined
    with [", "], wrapped by the bracket template; the wrapped rows joined
    and rendered by the two-dimensional array template with the row count
    and the column count) and [y] bound to the vector literal (the labels
    written by [str], joined, rendered by the one-dimensional array
    template with their number). *)
Theorem attached_literals_are_rendered_per_row
  (float_repr : float -> string) (lt : string -> Environment)
  (self : Adapter) (ph : dict) (mi : MetaInfo) (md : ModelData)
  (language : option Language.t) (template : option Template.t)
  (to_json : bool) (kw : kwargs) (s : state)
  (l : Language.t) (convert : float -> string)
  (row0 : list float) (rest : list (list float))
  (t_int t_double arr_1 arr_2 in_brackets tpl_class : Fragment) :
  well_formed self s ph mi md ->
  converter kw = Some convert ->
  X md = row0 :: rest ->
  check KNeighborsClassifier None language template =
    inr (Method.PREDICT, l, Template.ATTACHED) ->
  lt (Language.KEY l) "int" = Some t_int ->
  lt (Language.KEY l) "double" = Some t_double ->
  lt (Language.KEY l) "arr[]" = Some arr_1 ->
  lt (Language.KEY l) "arr[][]" = Some arr_2 ->
  lt (Language.KEY l) "in_brackets" = Some in_brackets ->
  lt (Language.KEY l) "attached.class" = Some tpl_class ->
  let x_str := matrix_literal arr_2 in_brackets (render t_double []) "X"
                 convert (X md) in
  let y_str := vector_literal arr_1 (render t_int []) "y" (y md) in
  fst (port float_repr lt self language template to_json kw s) =
  inr (Source
         (render tpl_class
            (dict_update
               (request_placeholders ph mi Method.PREDICT to_json kw)
               (dict_of [ ("X", VStr x_str); ("y", VStr y_str);
                          ("k", VInt (k md)); ("n", VInt (n md));
                          ("power", VInt (power md)) ])))).
Proof.
  intros Hwf Hconv HX Hcheck Hi Hd H1 H2 Hb Hc x_str y_str.
  rewrite (port_fst float_repr lt self ph mi md) by done.
  unfold port_result. rewrite Hcheck, exn_bind_inr.
  cbn [fst snd Template.eqb]. cbv zeta.
  unfold attached_result, find_template.
  rewrite Hi, Hd, H1, H2, Hb, Hc, !exn_bind_inr.
  rewrite Hconv, HX, render_X_spec, exn_bind_inr, render_y_spec.
  unfold x_str, y_str. by rewrite HX.
Qed.

Lemma attached_literals_are_rendered_per_row_witness :
  well_formed Sample.self Sample.ready Sample.base_placeholders
    Sample.meta Sample.data /\
  fst (Sample.run_port Sample.self None None false
         (Sample.with_converter Sample.float_repr) Sample.ready) =
  inr (Source
    "class KNN { double[][] X = {{0.25, 1.5}, {2.0, 0.25}}; int[] y = {0, 1}; int k = 1; int n = 2; double power = 2; predict(); }").
Proof.
  split; [exact sample_well_formed|].
  exact (attached_literals_are_rendered_per_row
    Sample.float_repr Sample._load_templates Sample.self
    Sample.base_placeholders Sample.meta Sample.data None None false
    (Sample.with_converter Sample.float_repr) Sample.ready Language.JAVA
    Sample.float_repr
    [Sample.quarter; Sample.one_and_half] [[Sample.two; Sample.quarter]]
    _ _ _ _ _ _
    sample_well_formed eq_refl eq_refl eq_refl
    eq_refl eq_refl eq_refl eq_refl eq_refl eq_refl).
Defined.

(** C10.  In the attached mode without a [converter] keyword argument,
    with the generic templates at hand and a first example that has at
    least one feature, [port] raises [TypeError]: none of the four
    declared error kinds.  It does so after the generic templates have been
    fetched and before the class template is, with the call's placeholder
    dictionary already allocated. *)
Theorem port_without_converter_raises_TypeError
  (float_repr : float -> string) (lt : string -> Environment)
  (self : Adapter) (ph : dict) (mi : MetaInfo) (md : ModelData)
  (language : option Language.t) (template : option Template.t)
  (to_json : bool) (kw : kwargs) (s : state)
  (l : Language.t) (x : float) (row0 : list float) (rest : list (list float))
  (t_int t_double arr_1 arr_2 in_brackets : Fragment) :
  well_formed self s ph mi md ->
  converter kw = None ->
  X md = (x :: row0) :: rest ->
  check KNeighborsClassifier None language template =
    inr (Method.PREDICT, l, Template.ATTACHED) ->
  lt (Language.KEY l) "int" = Some t_int ->
  lt (Language.KEY l) "double" = Some t_double ->
  lt (Language.KEY l) "arr[]" = Some arr_1 ->
  lt (Language.KEY l) "arr[][]" = Some arr_2 ->
  lt (Language.KEY l) "in_brackets" = Some in_brackets ->
  let e := TypeError "'NoneType' object is not callable" in
  port float_repr lt self language template to_json kw s =
    (inl e,
     {| heap := heap s ++
          [ODict (request_placeholders ph mi Method.PREDICT to_json kw)];
        FLOAT_REPR := FLOAT_REPR s;
        trace := trace s ++
          [ EvLoadTemplates (Language.KEY l);
            EvGetTemplate "int"; EvGetTemplate "double";
            EvGetTemplate "arr[]"; EvGetTemplate "arr[][]";
            EvGetTemplate "in_brackets" ] |}) /\
  declared_error e = false.
Proof.
  intros (Hph & Hmi & Hmd) Hconv HX Hcheck Hi Hd H1 H2 Hb e.
  split; [|reflexivity]. destruct s as [h f tr]. cbn [heap FLOAT_REPR trace] in *.
  rewrite (port_start_run float_repr lt self ph mi h Hph Hmi _ _ _ _ _ _ _
             Hcheck).
  cbn [fst snd Template.eqb]. unfold port_attached.
  do 5 (rewrite run_bind, get_template_run; unfold find_template;
        rewrite ?Hi, ?Hd, ?H1, ?H2, ?Hb; cbv beta iota).
  rewrite run_bind; erewrite load_model_data_run by exact Hmd;
    cbv beta iota.
  rewrite run_bind, lift_run, Hconv, HX, render_X_without_converter.
  cbv beta iota. by rewrite <- !app_assoc.
Qed.

Lemma port_without_converter_raises_TypeError_witness :
  well_formed Sample.self Sample.ready Sample.base_placeholders
    Sample.meta Sample.data /\
  converter Sample.without_converter = None /\
  fst (Sample.run_port Sample.self None None false Sample.without_converter
         Sample.ready) =
  inl (TypeError "'NoneType' object is not callable").
Proof.
  split; [exact sample_well_formed|]. split; [reflexivity|].
  exact (f_equal fst (proj1 (port_without_converter_raises_TypeError
    Sample.float_repr Sample._load_templates Sample.self
    Sample.base_placeholders Sample.meta Sample.data None None false
    Sample.without_converter Sample.ready Language.JAVA
    Sample.quarter [Sample.one_and_half] [[Sample.two; Sample.quarter]]
    _ _ _ _ _
    sample_well_formed eq_refl eq_refl eq_refl
    eq_refl eq_refl eq_refl eq_refl eq_refl))).
Defined.

(** ** Which numbers the converter writes *)

(** C8, as the code has it, for the attached mode.  The floats of [X]
    reach the output only as the texts the converter makes of them: two
    attached ports whose converters make the same texts of their matrices,
    and whose labels, [k], [n] and [power] are equal, return the same
    output.  The labels and the three scalars do not pass through the
    converter. *)
Theorem attached_floats_reach_output_through_converter
  (float_repr : float -> string) (lt : string -> Environment)
  (self1 self2 : Adapter) (ph : dict) (mi : MetaInfo)
  (md1 md2 : ModelData)
  (language : option Language.t) (template : option Template.t)
  (to_json : bool) (kw1 kw2 : kwargs) (s1 s2 : state)
  (c1 c2 : float -> string) :
  well_formed self1 s1 ph mi md1 ->
  well_formed self2 s2 ph mi md2 ->
  template = None \/ template = Some Template.ATTACHED ->
  converter kw1 = Some c1 ->
  converter kw2 = Some c2 ->
  class_name kw1 = class_name kw2 ->
  method_name kw1 = method_name kw2 ->
  map (map c1) (X md1) = map (map c2) (X md2) ->
  y md1 = y md2 -> k md1 = k md2 -> n md1 = n md2 ->
  power md1 = power md2 ->
  fst (port float_repr lt self1 language template to_json kw1 s1) =
  fst (port float_repr lt self2 language template to_json kw2 s2).
Proof.
  intros Hwf1 Hwf2 Ht Hc1 Hc2 Hcn Hmn HX Hy Hk Hn Hp.
  rewrite (port_fst float_repr lt self1 ph mi md1) by done.
  rewrite (port_fst float_repr lt self2 ph mi md2) by done.
  unfold port_result.
  destruct (check _ _ _ _) as [e|checked] eqn:E; [reflexivity|].
  rewrite !exn_bind_inr. cbv zeta.
  rewrite (resolved_attached _ _ _ Ht E).
  unfold request_placeholders, setdefault_method_name. cbn [class_name method_name].
  rewrite Hcn, Hmn. unfold attached_result.
  rewrite Hc1, Hc2, Hy, Hk, Hn, Hp.
  do 5 (match goal with
        | |- find_template ?a ?b ≫= _ = _ =>
            destruct (find_template a b);
            [reflexivity | rewrite !exn_bind_inr]
        end).
  by rewrite !render_X_cells, HX.
Qed.

Lemma attached_floats_reach_output_through_converter_witness :
  well_formed Sample.self Sample.ready Sample.base_placeholders
    Sample.meta Sample.data /\
  well_formed Sample.self Sample.ready_alt Sample.base_placeholders
    Sample.meta Sample.data_alt /\
  map (map Sample.percent_1f) (X Sample.data) =
  map (map Sample.percent_1f) (X Sample.data_alt) /\
  fst (Sample.run_port Sample.self None None false
         (Sample.with_converter Sample.percent_1f) Sample.ready) =
  fst (Sample.run_port Sample.self None None false
         (Sample.with_converter Sample.percent_1f) Sample.ready_alt).
Proof.
  assert (H2 : well_formed Sample.self Sample.ready_alt Sample.base_placeholders
                 Sample.meta Sample.data_alt) by (repeat split).
  split; [exact sample_well_formed|]. split; [exact H2|].
  split; [reflexivity|].
  exact (attached_floats_reach_output_through_converter
    Sample.float_repr Sample._load_templates Sample.self Sample.self
    Sample.base_placeholders Sample.meta Sample.data Sample.data_alt
    None None false
    (Sample.with_converter Sample.percent_1f)
    (Sample.with_converter Sample.percent_1f)
    Sample.ready Sample.ready_alt Sample.percent_1f Sample.percent_1f
    sample_well_formed H2 (or_introl eq_refl) eq_refl eq_refl eq_refl eq_refl
    eq_refl eq_refl eq_refl eq_refl eq_refl).
Defined.

(** C8, as stated, does not hold.  With a converter that writes every
    float as [c], the labels of the attached class are still [0] and [1]:
    they are written by [str], and are not outputs of the converter.  The
    data document of the exported mode does not carry the converter's
    texts either. *)
Lemma labels_and_document_are_not_converter_produced :
  let kw := Sample.with_converter Sample.constant_converter in
  fst (Sample.run_port Sample.self None (Some Template.ATTACHED) false kw
         Sample.ready) =
  inr (Source
    "class KNN { double[][] X = {{c, c}, {c, c}}; int[] y = {0, 1}; int k = 1; int n = 2; double power = 2; predict(); }") /\
  y_val (y Sample.data) = ["0"; "1"] /\
  ~ converter_produced Sample.constant_converter (y_val (y Sample.data)) /\
  fst (Sample.run_port Sample.self None (Some Template.EXPORTED) false kw
         Sample.ready) =
  inr (SourceAndData "class KNN { load(); predict(); }" Sample.document).
Proof.
  repeat split.
  intros H. destruct (H "0") as [x Hx]; [by left|]. discriminate.
Qed.

(** ** Attached and exported data *)

(** Whatever the converter of the request, an exported port returns the
    same class and the same data document. *)
Lemma exported_result_ignores_converter
  (float_repr : float -> string) (lt : string -> Environment)
  (self : Adapter) (ph : dict) (mi : MetaInfo) (md : ModelData)
  (language : option Language.t) (to_json : bool) (kw1 kw2 : kwargs)
  (s : state) :
  well_formed self s ph mi md ->
  class_name kw1 = class_name kw2 ->
  method_name kw1 = method_name kw2 ->
  fst (port float_repr lt self language (Some Template.EXPORTED)
         to_json kw1 s) =
  fst (port float_repr lt self language (Some Template.EXPORTED)
         to_json kw2 s).
Proof.
  intros Hwf Hcn Hmn.
  rewrite !(port_fst float_repr lt self ph mi md) by done.
  unfold port_result.
  destruct (check _ _ _ _) as [e|checked] eqn:E; [reflexivity|].
  rewrite !exn_bind_inr. cbv zeta.
  unfold request_placeholders, setdefault_method_name.
  cbn [class_name method_name converter]. rewrite Hcn, Hmn.
  destruct language as [[| |key]|]; cbn in E; try discriminate;
    injection E as <-; reflexivity.
Qed.

(** C4.  With the converter ['%.1f'], the attached class embeds 0.25 as
    [0.2], while the data document of the exported mode carries [0.25]:
    the assignment to [encoder.FLOAT_REPR] does not reach the encoder, so
    the document is written with float.__repr__. *)
Lemma exported_document_bypasses_converter :
  let kw := Sample.with_converter Sample.percent_1f in
  fst (Sample.run_port Sample.self (Some Language.JAVA)
         (Some Template.ATTACHED) false kw Sample.ready) =
  inr (Source
    "class KNN { double[][] X = {{0.2, 1.5}, {2.0, 0.2}}; int[] y = {0, 1}; int k = 1; int n = 2; double power = 2; predict(); }") /\
  fst (Sample.run_port Sample.self (Some Language.JAVA)
         (Some Template.EXPORTED) false kw Sample.ready) =
  inr (SourceAndData "class KNN { load(); predict(); }" Sample.document) /\
  Sample.percent_1f Sample.quarter = "0.2" /\
  Sample.float_repr Sample.quarter = "0.25".
Proof. repeat split. Qed.

(** * Further properties of the adapter *)

(** ** Outcomes of the construction *)

Lemma init_empty_run dbg bp est s cls :
  classes_ est = Some cls ->
  weights_not_uniform (weights est) = false ->
  _fit_X est = [] ->
  __init__ dbg bp est s =
  (inl (IndexError "index 0 is out of bounds"),
   {| heap := heap s ++ [ODict bp];
      FLOAT_REPR := FLOAT_REPR s;
      trace := trace s ++ construction_start ++
                 [ EvGetAttr "classes_"; EvGetAttr "weights";
                   EvGetAttr "classes_"; EvGetAttr "_fit_X";
                   EvGetAttr "_fit_X" ] |}).
Proof.
  intros H Hw HX. destruct s as [h f tr].
  unfold __init__, EstimatorBase__init__, try_except_AttributeError,
    get_classes_, getattr.
  unfold_monad. cbn. rewrite H. cbn. rewrite Hw. cbn. rewrite HX. cbn.
  by rewrite <- !app_assoc.
Qed.

(** X1.  A fitted estimator with uniform weights and an empty [_fit_X]
    makes construction raise [IndexError] at [est._fit_X[0]], none of the
    declared error kinds: the placeholder dictionary is the only object
    created, and neither [meta_info] nor [model_data] has been set. *)
Theorem empty_training_matrix_raises_IndexError
  (debug_enabled : bool) (base_placeholders : dict)
  (est : Estimator) (cls : list value) (s : state) :
  classes_ est = Some cls ->
  weights est = WeightsStr "uniform" ->
  _fit_X est = [] ->
  let evs := construction_start ++
             [ EvGetAttr "classes_"; EvGetAttr "weights";
               EvGetAttr "classes_"; EvGetAttr "_fit_X";
               EvGetAttr "_fit_X" ] in
  __init__ debug_enabled base_placeholders est s =
    (inl (IndexError "index 0 is out of bounds"),
     {| heap := heap s ++ [ODict base_placeholders];
        FLOAT_REPR := FLOAT_REPR s;
        trace := trace s ++ evs |}) /\
  declared_error (IndexError "index 0 is out of bounds") = false.
Proof.
  intros Hc Hw HX evs. split; [|reflexivity].
  apply (init_empty_run _ _ _ _ cls Hc); [by rewrite Hw | exact HX].
Qed.

Lemma empty_training_matrix_raises_IndexError_witness :
  classes_ Sample.no_examples = Some [VInt 0] /\
  fst (Sample.init Sample.no_examples Sample.initial) =
  inl (IndexError "index 0 is out of bounds").
Proof.
  split; [reflexivity|].
  exact (f_equal fst (proj1 (empty_training_matrix_raises_IndexError
    false Sample.base_placeholders Sample.no_examples [VInt 0] Sample.initial
    eq_refl eq_refl eq_refl))).
Defined.

Lemma constructible_spec (est : Estimator) :
  constructible est = true <->
  (exists cls, classes_ est = Some cls) /\
  weights est = WeightsStr "uniform" /\
  _fit_X est <> [].
Proof.
  unfold constructible. split.
  - destruct (classes_ est) as [cls|]; [|discriminate].
    destruct (_fit_X est) as [|row0 rest]; [discriminate|].
    intros H. apply negb_true_iff in H.
    split; [by eexists|]. split; [|done].
    destruct (weights est) as [w|]; [|discriminate].
    cbn in H. apply negb_false_iff, String.eqb_eq in H. by subst.
  - intros ([cls ->] & -> & HX).
    destruct (_fit_X est); [done|reflexivity].
Qed.

Lemma init_constructible_run dbg bp est s :
  constructible est = true ->
  __init__ dbg bp est s =
  (inr {| estimator := est;
          estimator_name := qualname est;
          placeholders := length (heap s);
          meta_info := S (length (heap s));
          model_data := S (S (length (heap s))) |},
   {| heap := heap s ++
        [ ODict bp; OMetaInfo (extracted_meta_info est);
          OModelData (extracted_model_data est) ];
      FLOAT_REPR := FLOAT_REPR s;
      trace := trace s ++ init_events dbg |}).
Proof.
  unfold constructible, extracted_meta_info, extracted_model_data.
  destruct (classes_ est) as [cls|] eqn:Hc; [|discriminate].
  destruct (_fit_X est) as [|row0 rest] eqn:HX; [discriminate|].
  intros Hw. apply negb_true_iff in Hw.
  rewrite (init_run dbg bp est s cls row0 rest Hc Hw HX).
  by rewrite HX.
Qed.

(** X2.  Construction returns an adapter only if the estimator has
    [classes_], its [weights] is ['uniform'] and [_fit_X] has at least one
    row, and the adapter it returns wraps that estimator: no adapter is
    ever built from an estimator that is not fitted, that weighs its
    neighbours or that has no training example. *)
Theorem construction_succeeds_only_if_constructible
  (debug_enabled : bool) (base_placeholders : dict)
  (est : Estimator) (s : state) (self : Adapter) (s' : state) :
  __init__ debug_enabled base_placeholders est s = (inr self, s') ->
  (exists cls, classes_ est = Some cls) /\
  weights est = WeightsStr "uniform" /\
  _fit_X est <> [] /\
  estimator self = est.
Proof.
  intros H.
  assert (Hc : constructible est = true).
  { unfold constructible.
    destruct (classes_ est) as [cls|] eqn:Hc.
    2:{ by rewrite (init_unfitted_run _ _ _ _ Hc) in H. }
    destruct (weights_not_uniform (weights est)) eqn:Hw.
    { by rewrite (init_unsupported_run _ _ _ _ cls Hc Hw) in H. }
    destruct (_fit_X est) as [|row0 rest] eqn:HX; [|reflexivity].
    by rewrite (init_empty_run _ _ _ _ cls Hc Hw HX) in H. }
  rewrite (init_constructible_run _ _ _ _ Hc) in H.
  injection H as <- _.
  apply constructible_spec in Hc as (H1 & H2 & H3).
  by repeat split.
Qed.

Lemma construction_succeeds_only_if_constructible_witness :
  Sample.init Sample.fitted Sample.initial =
    (inr Sample.self, Sample.ready) /\
  weights Sample.fitted = WeightsStr "uniform" /\
  _fit_X Sample.fitted <> [].
Proof.
  split; [reflexivity|].
  destruct (construction_succeeds_only_if_constructible false
              Sample.base_placeholders Sample.fitted Sample.initial
              Sample.self Sample.ready eq_refl) as (_ & H2 & H3 & _).
  exact (conj H2 H3).
Defined.

Lemma lookup_appended (h : list object) (a b c : object) :
  (h ++ [a; b; c]) !! length h = Some a /\
  (h ++ [a; b; c]) !! S (length h) = Some b /\
  (h ++ [a; b; c]) !! S (S (length h)) = Some c.
Proof.
  repeat split; rewrite lookup_app_r by lia.
  - by rewrite Nat.sub_diag.
  - by replace (S (length h) - length h)%nat with 1%nat by lia.
  - by replace (S (S (length h)) - length h)%nat with 2%nat by lia.
Qed.


(** X3.  A successful construction returns an adapter whose three
    references point to the placeholder dictionary, the meta information
    and the model data it has just created.  The model data holds the
    estimator's [_fit_X], [_y], [n_neighbors] and [p] as they are, and
    agrees with the meta information: [n] is [n_classes], the number of
    rows of [X] is [n_templates], the length of its first row is
    [n_features], and [X] is not empty. *)
Theorem construction_stores_consistent_snapshot
  (debug_enabled : bool) (base_placeholders : dict)
  (est : Estimator) (s : state) :
  constructible est = true ->
  exists self s' mi md,
    __init__ debug_enabled base_placeholders est s = (inr self, s') /\
    well_formed self s' base_placeholders mi md /\
    estimator self = est /\
    X md = _fit_X est /\ y md = _y est /\
    k md = n_neighbors est /\ power md = p est /\
    meta_metric mi = metric est /\
    n md = n_classes mi /\
    len (X md) = n_templates mi /\
    column_count (X md) = n_features mi /\
    X md <> [].
Proof.
  intros Hc.
  exists {| estimator := est;
            estimator_name := qualname est;
            placeholders := length (heap s);
            meta_info := S (length (heap s));
            model_data := S (S (length (heap s))) |}.
  eexists _, (extracted_meta_info est), (extracted_model_data est).
  split; [apply init_constructible_run; exact Hc|].
  split; [apply lookup_appended|].
  do 9 (split; [reflexivity|]).
  cbn [X extracted_model_data]. apply constructible_spec in Hc.
  destruct Hc as (_ & _ & Hc). exact Hc.
Qed.

Lemma construction_stores_consistent_snapshot_witness :
  constructible Sample.fitted = true /\
  exists self s' mi md,
    Sample.init Sample.fitted Sample.initial = (inr self, s') /\
    well_formed self s' Sample.base_placeholders mi md /\
    n md = n_classes mi /\ len (X md) = n_templates mi.
Proof.
  split; [reflexivity|].
  destruct (construction_stores_consistent_snapshot false
              Sample.base_placeholders Sample.fitted Sample.initial eq_refl)
    as (self & s' & mi & md & H1 & H2 & _ & _ & _ & _ & _ & _ & H3 & H4 & _).
  exists self, s', mi, md. exact (conj H1 (conj H2 (conj H3 H4))).
Defined.

(** Construction, whether it succeeds or fails, adds objects and events
    and changes nothing else. *)
Lemma init_extends dbg bp est s :
  exists objs evs,
    snd (__init__ dbg bp est s) =
    {| heap := heap s ++ objs; FLOAT_REPR := FLOAT_REPR s;
       trace := trace s ++ evs |}.
Proof.
  destruct (classes_ est) as [cls|] eqn:Hc.
  2:{ rewrite (init_unfitted_run _ _ _ _ Hc). by eexists _, _. }
  destruct (weights_not_uniform (weights est)) eqn:Hw.
  { rewrite (init_unsupported_run _ _ _ _ cls Hc Hw). by eexists _, _. }
  destruct (_fit_X est) as [|row0 rest] eqn:HX.
  { rewrite (init_empty_run _ _ _ _ cls Hc Hw HX). by eexists _, _. }
  rewrite (init_run _ _ _ _ cls row0 rest Hc Hw HX). by eexists _, _.
Qed.

(** X4.  Constructing an adapter, whether it succeeds or raises, changes
    no object that existed before and leaves [encoder.FLOAT_REPR] as it
    was: adapters built earlier stay well formed. *)
Theorem construction_keeps_existing_adapters
  (debug_enabled : bool) (base_placeholders : dict)
  (est : Estimator) (s : state)
  (other : Adapter) (ph : dict) (mi : MetaInfo) (md : ModelData) :
  well_formed other s ph mi md ->
  let s' := snd (__init__ debug_enabled base_placeholders est s) in
  well_formed other s' ph mi md /\
  FLOAT_REPR s' = FLOAT_REPR s /\
  (forall l o, heap s !! l = Some o -> heap s' !! l = Some o).
Proof.
  intros (Hph & Hmi & Hmd) s'. unfold s'.
  destruct (init_extends debug_enabled base_placeholders est s)
    as (objs & evs & ->).
  assert (Hkeep : forall l o, heap s !! l = Some o ->
                    (heap s ++ objs) !! l = Some o).
  { intros l o H. rewrite lookup_app_l; [done | by eapply lookup_lt_Some]. }
  split; [|split; [reflexivity | exact Hkeep]].
  repeat split; cbn; by apply Hkeep.
Qed.

Lemma construction_keeps_existing_adapters_witness :
  well_formed Sample.self Sample.ready Sample.base_placeholders
    Sample.meta Sample.data /\
  well_formed Sample.self
    (snd (Sample.init Sample.distance_weighted Sample.ready))
    Sample.base_placeholders Sample.meta Sample.data.
Proof.
  split; [exact sample_well_formed|].
  exact (proj1 (construction_keeps_existing_adapters false
    Sample.base_placeholders Sample.distance_weighted Sample.ready
    Sample.self Sample.base_placeholders Sample.meta Sample.data
    sample_well_formed)).
Defined.

(** X5.  For a constructible estimator, what constructing and porting
    returns is [port_result] at the base placeholders and at the meta
    information and model data extracted from the estimator: it does not
    depend on the state in which the calls are made. *)
Theorem construct_and_port_is_a_function_of_the_estimator
  (float_repr : float -> string) (debug_enabled : bool)
  (base_placeholders : dict) (lt : string -> Environment)
  (est : Estimator) (language : option Language.t)
  (template : option Template.t) (to_json : bool) (kw : kwargs)
  (s : state) :
  constructible est = true ->
  fst (construct_and_port float_repr debug_enabled base_placeholders lt est
         language template to_json kw s) =
  port_result float_repr lt base_placeholders
    (extracted_meta_info est) (extracted_model_data est)
    language template to_json kw.
Proof.
  intros Hc. unfold construct_and_port.
  rewrite run_bind, (init_constructible_run _ _ _ _ Hc).
  apply port_fst. apply lookup_appended.
Qed.

Lemma construct_and_port_is_a_function_of_the_estimator_witness :
  constructible Sample.fitted = true /\
  fst (Sample.run Sample.fitted None None false
         (Sample.with_converter Sample.float_repr) Sample.ready) =
  fst (Sample.run Sample.fitted None None false
         (Sample.with_converter Sample.float_repr) Sample.initial).
Proof.
  split; [reflexivity|].
  exact (eq_trans
    (construct_and_port_is_a_function_of_the_estimator
       Sample.float_repr false Sample.base_placeholders
       Sample._load_templates Sample.fitted None None false
       (Sample.with_converter Sample.float_repr) Sample.ready eq_refl)
    (eq_sym (construct_and_port_is_a_function_of_the_estimator
       Sample.float_repr false Sample.base_placeholders
       Sample._load_templates Sample.fitted None None false
       (Sample.with_converter Sample.float_repr) Sample.initial eq_refl))).
Defined.


Ltac stop_precise :=
  eexists _, _; split;
  [rewrite <- ?app_assoc; reflexivity | split; [reflexivity|]].

(** ** The state after a validated call *)

Lemma port_attached_run_precise self md h tpls plas conv f tr :
  h !! model_data self = Some (OModelData md) ->
  exists d evs,
  port_attached self tpls (length h) conv
    {| heap := h ++ [ODict plas]; FLOAT_REPR := f; trace := tr |} =
  (attached_result tpls plas md conv,
   {| heap := h ++ [ODict d]; FLOAT_REPR := f; trace := tr ++ evs |}) /\
  forallb is_get_template evs = true /\
  (d = plas \/
   exists x_str y_str, d = dict_update plas (attached_update x_str y_str md)).
Proof.
  intros Hmd. unfold port_attached, attached_result.
  do 5 (rewrite run_bind, get_template_run;
        destruct (find_template tpls _) as [?|?]; cbv beta iota;
        [ stop_precise; by left | rewrite exn_bind_inr ]).
  rewrite run_bind; erewrite load_model_data_run by exact Hmd;
    cbv beta iota.
  rewrite run_bind, lift_run.
  destruct (render_X _ _ _ _ _) as [?|x_str]; cbv beta iota;
    [ stop_precise; by left | rewrite exn_bind_inr ].
  rewrite run_bind, get_template_run;
    destruct (find_template tpls _) as [?|?]; cbv beta iota;
    [ stop_precise; by left | rewrite exn_bind_inr ].
  run_with update_fresh_run. run_with load_fresh_run.
  stop_precise. right. by eexists _, _.
Qed.

Lemma port_run_precise float_repr lt self ph mi md h f tr
  language template to_json kw checked :
  h !! placeholders self = Some (ODict ph) ->
  h !! meta_info self = Some (OMetaInfo mi) ->
  h !! model_data self = Some (OModelData md) ->
  check KNeighborsClassifier None language template = inr checked ->
  let plas := request_placeholders ph mi (fst (fst checked)) to_json kw in
  exists d evs,
    snd (port float_repr lt self language template to_json kw
           {| heap := h; FLOAT_REPR := f; trace := tr |}) =
    {| heap := h ++ [ODict d];
       FLOAT_REPR := FLOAT_REPR_after lt f language template kw;
       trace := tr ++ EvLoadTemplates (Language.KEY (snd (fst checked)))
                  :: evs |} /\
    forallb is_get_template evs = true /\
    (d = plas \/
     exists x_str y_str,
       d = dict_update plas (attached_update x_str y_str md)).
Proof.
  intros Hph Hmi Hmd Hcheck plas. subst plas.
  rewrite (port_start_run float_repr lt self ph mi h Hph Hmi _ _ _ _ _ _ _
             Hcheck).
  unfold FLOAT_REPR_after. rewrite Hcheck.
  destruct (Template.eqb (snd checked) Template.EXPORTED).
  - rewrite (port_exported_run float_repr self md h Hmd).
    eexists _, _. split; [cbn; by rewrite <- app_assoc|].
    split; [reflexivity | by left].
  - destruct (port_attached_run_precise self md h
                (lt (Language.KEY (snd (fst checked))))
                (request_placeholders ph mi (fst (fst checked)) to_json kw)
                (converter kw) f
                (tr ++ [EvLoadTemplates (Language.KEY (snd (fst checked)))])
                Hmd) as (d & evs & -> & Hevs & Hd).
    exists d, evs. split; [cbn; by rewrite <- app_assoc|].
    split; [exact Hevs | exact Hd].
Qed.

(** ** Lookups in updated dictionaries *)

Lemma dict_lookup_set_eq (d : dict) (key : string) (v : value) :
  dict_lookup (dict_set d key v) key = Some v.
Proof.
  induction d as [|[k0 v0] d IH]; cbn.
  - by rewrite String.eqb_refl.
  - destruct (String.eqb k0 key) eqn:E; cbn.
    + by rewrite String.eqb_refl.
    + by rewrite E.
Qed.

Lemma dict_lookup_set_ne (d : dict) (key key' : string) (v : value) :
  key <> key' ->
  dict_lookup (dict_set d key v) key' = dict_lookup d key'.
Proof.
  intros Hne. induction d as [|[k0 v0] d IH]; cbn.
  - by apply String.eqb_neq in Hne as ->.
  - destruct (String.eqb k0 key) eqn:E; cbn.
    + apply String.eqb_eq in E as ->.
      by apply String.eqb_neq in Hne as ->.
    + destruct (String.eqb k0 key'); [done | exact IH].
Qed.

Lemma dict_get_set_eq (d : dict) (key : string) (v : value) :
  dict_get (dict_set d key v) key = v.
Proof. unfold dict_get. by rewrite dict_lookup_set_eq. Qed.

Lemma dict_get_set_ne (d : dict) (key key' : string) (v : value) :
  key <> key' -> dict_get (dict_set d key v) key' = dict_get d key'.
Proof. intros H. unfold dict_get. by rewrite dict_lookup_set_ne. Qed.

Lemma dict_update_cons (d : dict) (key : string) (v : value) (rest : dict) :
  dict_update d ((key, v) :: rest) = dict_update (dict_set d key v) rest.
Proof. reflexivity. Qed.

Lemma dict_get_update_other (d other : dict) (key : string) :
  (forall kv, In kv other -> fst kv <> key) ->
  dict_get (dict_update d other) key = dict_get d key.
Proof.
  revert d. induction other as [|[k0 v0] other IH]; intros d H; [done|].
  rewrite dict_update_cons, IH.
  - apply dict_get_set_ne. apply (H (k0, v0)). by left.
  - intros kv Hin. apply H. by right.
Qed.

Lemma request_placeholders_unfold ph mi m to_json kw :
  request_placeholders ph mi m to_json kw =
  dict_set (dict_set (dict_set (dict_set (dict_set (dict_set (dict_set ph
    "class_name" (kwargs_get (class_name kw)))
    "method_name" (match method_name kw with
                   | Some v => v
                   | None => VStr (Method.value m)
                   end))
    "to_json" (VBool to_json))
    "n_classes" (VInt (n_classes mi)))
    "n_templates" (VInt (n_templates mi)))
    "n_features" (VInt (n_features mi)))
    "metric" (VStr (meta_metric mi)).
Proof. unfold request_placeholders. cbn. by destruct (method_name kw). Qed.


Lemma checked_method language template checked :
  check KNeighborsClassifier None language template = inr checked ->
  fst (fst checked) = Method.PREDICT.
Proof.
  intros H. by destruct (check_accepts_only_supported _ _ _ _ _ H) as [-> _].
Qed.

Ltac dict_lookups :=
  repeat (rewrite dict_get_set_ne by done); rewrite ?dict_get_set_eq.

Lemma request_placeholders_lookups ph mi m to_json kw :
  let plas := request_placeholders ph mi m to_json kw in
  dict_get plas "class_name" = kwargs_get (class_name kw) /\
  dict_get plas "method_name" =
    match method_name kw with
    | Some v => v
    | None => VStr (Method.value m)
    end /\
  dict_get plas "to_json" = VBool to_json /\
  dict_get plas "n_classes" = VInt (n_classes mi) /\
  dict_get plas "n_templates" = VInt (n_templates mi) /\
  dict_get plas "n_features" = VInt (n_features mi) /\
  dict_get plas "metric" = VStr (meta_metric mi) /\
  forall key, ~ In key request_keys -> dict_get plas key = dict_get ph key.
Proof.
  cbv zeta. rewrite request_placeholders_unfold.
  repeat split; try (by dict_lookups).
  intros key Hkey. unfold request_keys in Hkey. cbn in Hkey.
  repeat (rewrite dict_get_set_ne; [|intros <-; apply Hkey; intuition]).
  reflexivity.
Qed.

Lemma attached_update_keeps x_str y_str md plas key :
  ~ In key attached_keys ->
  dict_get (dict_update plas (attached_update x_str y_str md)) key =
  dict_get plas key.
Proof.
  intros Hkey. apply dict_get_update_other.
  intros kv Hin <-. apply Hkey. unfold attached_update in Hin.
  cbn in Hin. unfold attached_keys. cbn.
  destruct Hin as [<-|[<-|[<-|[<-|[<-|[]]]]]]; cbn; intuition.
Qed.

(** X6.  The placeholder mapping of a call that passes [check] is a new
    object at the end of the heap.  Whatever the adapter's own
    placeholders are, it binds [class_name] to the keyword argument (to
    [None] when there is none), [method_name] to the keyword argument when
    one is given (even [None]) and to ['predict'] otherwise, [to_json] to
    the flag and the four keys of the meta information to its values;
    every key that [port] does not write keeps the value of the adapter's
    placeholders. *)
Theorem placeholders_of_a_call
  (float_repr : float -> string) (lt : string -> Environment)
  (self : Adapter) (ph : dict) (mi : MetaInfo) (md : ModelData)
  (language : option Language.t) (template : option Template.t)
  (to_json : bool) (kw : kwargs) (s : state)
  (checked : Method.t * Language.t * Template.t) :
  well_formed self s ph mi md ->
  check KNeighborsClassifier None language template = inr checked ->
  exists plas,
    heap (snd (port float_repr lt self language template to_json kw s)) =
      heap s ++ [ODict plas] /\
    dict_get plas "class_name" = kwargs_get (class_name kw) /\
    dict_get plas "method_name" =
      match method_name kw with
      | Some v => v
      | None => VStr "predict"
      end /\
    dict_get plas "to_json" = VBool to_json /\
    dict_get plas "n_classes" = VInt (n_classes mi) /\
    dict_get plas "n_templates" = VInt (n_templates mi) /\
    dict_get plas "n_features" = VInt (n_features mi) /\
    dict_get plas "metric" = VStr (meta_metric mi) /\
    forall key, ~ In key (request_keys ++ attached_keys) ->
      dict_get plas key = dict_get ph key.
Proof.
  intros (Hph & Hmi & Hmd) Hcheck. destruct s as [h f tr].
  cbn [heap] in *.
  destruct (port_run_precise float_repr lt self ph mi md h f tr
              language template to_json kw checked Hph Hmi Hmd Hcheck)
    as (d & evs & -> & _ & Hd).
  exists d. split; [reflexivity|].
  cbv zeta in Hd. rewrite (checked_method _ _ _ Hcheck) in Hd.
  pose proof (request_placeholders_lookups ph mi Method.PREDICT
                to_json kw) as L.
  cbv zeta in L.
  change (Method.value Method.PREDICT) with "predict" in L.
  destruct L as (L1 & L2 & L3 & L4 & L5 & L6 & L7 & L8).
  assert (Hframe : forall key, ~ In key (request_keys ++ attached_keys) ->
            ~ In key request_keys /\ ~ In key attached_keys).
  { intros key H. split; intros Hin; apply H, in_or_app; tauto. }
  destruct Hd as [-> | (x_str & y_str & ->)].
  - do 7 (split; [assumption|]).
    intros key H. apply L8. by apply Hframe.
  - rewrite !attached_update_keeps by (cbn; intuition discriminate).
    do 7 (split; [assumption|]).
    intros key H. destruct (Hframe key H) as [H1 H2].
    rewrite attached_update_keeps by exact H2. by apply L8.
Qed.


Lemma placeholders_of_a_call_witness :
  well_formed Sample.self Sample.ready Sample.base_placeholders
    Sample.meta Sample.data /\
  exists plas,
    heap (snd (Sample.run_port Sample.self None None false Sample.unnamed
                 Sample.ready)) = heap Sample.ready ++ [ODict plas] /\
    dict_get plas "class_name" = VNone /\
    dict_get plas "method_name" = VStr "predict" /\
    dict_get plas "estimator_name" = VStr "KNeighborsClassifier".
Proof.
  split; [exact sample_well_formed|].
  destruct (placeholders_of_a_call Sample.float_repr Sample._load_templates
              Sample.self Sample.base_placeholders Sample.meta Sample.data
              None None false Sample.unnamed Sample.ready
              (Method.PREDICT, Language.JAVA, Template.ATTACHED)
              sample_well_formed eq_refl)
    as (plas & H1 & H2 & H3 & _ & _ & _ & _ & _ & H9).
  exists plas. split; [exact H1|]. split; [exact H2|]. split; [exact H3|].
  rewrite H9; [reflexivity|]. cbn. intuition discriminate.
Defined.

(** X7.  A call that fails [check] leaves the state untouched.  A call
    that passes it loads the template set once, by the [KEY] of the
    resolved language and before anything else is observed; all that
    follows in the trace is the fetching of single templates. *)
Theorem templates_are_loaded_once_per_validated_call
  (float_repr : float -> string) (lt : string -> Environment)
  (self : Adapter) (ph : dict) (mi : MetaInfo) (md : ModelData)
  (language : option Language.t) (template : option Template.t)
  (to_json : bool) (kw : kwargs) (s : state) :
  well_formed self s ph mi md ->
  let s' := snd (port float_repr lt self language template to_json kw s) in
  match check KNeighborsClassifier None language template with
  | inl _ => s' = s
  | inr checked =>
      exists evs,
        trace s' =
          trace s ++ EvLoadTemplates (Language.KEY (snd (fst checked)))
            :: evs /\
        forallb is_get_template evs = true
  end.
Proof.
  intros (Hph & Hmi & Hmd) s'. unfold s'. destruct s as [h f tr].
  cbn [heap trace] in *.
  destruct (check KNeighborsClassifier None language template)
    as [e|checked] eqn:Hcheck.
  - unfold port. by rewrite run_bind, lift_run, Hcheck.
  - destruct (port_run_precise float_repr lt self ph mi md h f tr
                language template to_json kw checked Hph Hmi Hmd Hcheck)
      as (d & evs & -> & Hevs & _).
    by exists evs.
Qed.

Lemma templates_are_loaded_once_per_validated_call_witness :
  well_formed Sample.self Sample.ready Sample.base_placeholders
    Sample.meta Sample.data /\
  exists evs,
    trace (snd (Sample.run_port Sample.self (Some Language.JS)
                  (Some Template.EXPORTED) false Sample.unnamed Sample.ready)) =
    trace Sample.ready ++ EvLoadTemplates "js" :: evs /\
    forallb is_get_template evs = true.
Proof.
  split; [exact sample_well_formed|].
  exact (templates_are_loaded_once_per_validated_call Sample.float_repr
           Sample._load_templates Sample.self Sample.base_placeholders
           Sample.meta Sample.data (Some Language.JS)
           (Some Template.EXPORTED) false Sample.unnamed Sample.ready
           sample_well_formed).
Defined.

(** ** The exported branch *)

Lemma checked_exported language checked :
  check KNeighborsClassifier None language (Some Template.EXPORTED)
    = inr checked ->
  checked = (Method.PREDICT, default Language.JAVA language,
             Template.EXPORTED).
Proof.
  intros H. by destruct (check_accepts_only_supported _ _ _ _ _ H) as [-> _].
Qed.

Lemma exported_port_formula float_repr lt self ph mi md
  language to_json kw s checked :
  well_formed self s ph mi md ->
  check KNeighborsClassifier None language (Some Template.EXPORTED)
    = inr checked ->
  fst (port float_repr lt self language (Some Template.EXPORTED)
         to_json kw s) =
  match lt (Language.KEY (default Language.JAVA language))
           "exported.class" with
  | Some tpl_class =>
      inr (SourceAndData
             (render tpl_class
                (request_placeholders ph mi Method.PREDICT to_json kw))
             (encode_dict (floatstr float_repr) (model_data_items md)))
  | None => inl (TemplateNotFound "exported.class")
  end.
Proof.
  intros Hwf Hcheck.
  rewrite (port_fst float_repr lt self ph mi md) by done.
  unfold port_result. rewrite Hcheck, exn_bind_inr.
  rewrite (checked_exported _ _ Hcheck). cbn [fst snd Template.eqb].
  cbv zeta. unfold exported_result, find_template.
  by destruct (lt _ "exported.class").
Qed.

(** X8.  An exported port that passes [check] and finds the template
    ['exported.class'] returns the class rendered with the placeholders of
    the call and the data document of the model data, whatever the
    converter, the generic templates and the training matrix are. *)
Theorem exported_port_needs_only_its_class_template
  (float_repr : float -> string) (lt : string -> Environment)
  (self : Adapter) (ph : dict) (mi : MetaInfo) (md : ModelData)
  (language : option Language.t) (to_json : bool) (kw : kwargs)
  (s : state) (checked : Method.t * Language.t * Template.t)
  (tpl_class : Fragment) :
  well_formed self s ph mi md ->
  check KNeighborsClassifier None language (Some Template.EXPORTED)
    = inr checked ->
  lt (Language.KEY (default Language.JAVA language)) "exported.class"
    = Some tpl_class ->
  fst (port float_repr lt self language (Some Template.EXPORTED)
         to_json kw s) =
  inr (SourceAndData
         (render tpl_class
            (request_placeholders ph mi Method.PREDICT to_json kw))
         (encode_dict (floatstr float_repr) (model_data_items md))).
Proof.
  intros Hwf Hcheck Htpl.
  rewrite (exported_port_formula _ _ _ ph mi md _ _ _ _ checked Hwf Hcheck).
  by rewrite Htpl.
Qed.

Lemma exported_port_needs_only_its_class_template_witness :
  well_formed Sample.self Sample.ready Sample.base_placeholders
    Sample.meta Sample.data /\
  fst (Sample.run_port Sample.self (Some Language.JS)
         (Some Template.EXPORTED) false Sample.without_converter
         Sample.ready) =
  inr (SourceAndData "class KNN { load(); predict(); }" Sample.document).
Proof.
  split; [exact sample_well_formed|].
  exact (exported_port_needs_only_its_class_template Sample.float_repr
    Sample._load_templates Sample.self Sample.base_placeholders Sample.meta
    Sample.data (Some Language.JS) false Sample.without_converter
    Sample.ready (Method.PREDICT, Language.JS, Template.EXPORTED) _
    sample_well_formed eq_refl eq_refl).
Defined.

(** X9.  When the template ['exported.class'] is missing, an exported
    port raises [TemplateNotFound] for it and has not yet touched
    [encoder.FLOAT_REPR]. *)
Theorem exported_port_without_class_template
  (float_repr : float -> string) (lt : string -> Environment)
  (self : Adapter) (ph : dict) (mi : MetaInfo) (md : ModelData)
  (language : option Language.t) (to_json : bool) (kw : kwargs)
  (s : state) (checked : Method.t * Language.t * Template.t) :
  well_formed self s ph mi md ->
  check KNeighborsClassifier None language (Some Template.EXPORTED)
    = inr checked ->
  lt (Language.KEY (default Language.JAVA language)) "exported.class"
    = None ->
  fst (port float_repr lt self language (Some Template.EXPORTED)
         to_json kw s) = inl (TemplateNotFound "exported.class") /\
  FLOAT_REPR (snd (port float_repr lt self language
                     (Some Template.EXPORTED) to_json kw s)) =
  FLOAT_REPR s.
Proof.
  intros Hwf Hcheck Htpl. split.
  - rewrite (exported_port_formula _ _ _ ph mi md _ _ _ _ checked Hwf Hcheck).
    by rewrite Htpl.
  - rewrite (port_FLOAT_REPR float_repr lt self ph mi md) by done.
    unfold FLOAT_REPR_after. rewrite Hcheck.
    rewrite (checked_exported _ _ Hcheck). cbn [fst snd Template.eqb].
    by rewrite Htpl.
Qed.

Lemma exported_port_without_class_template_witness :
  well_formed Sample.self Sample.ready Sample.base_placeholders
    Sample.meta Sample.data /\
  fst (port Sample.float_repr (Sample.templates_without "exported.class")
         Sample.self None (Some Template.EXPORTED) false
         (Sample.with_converter Sample.percent_1f) Sample.ready) =
  inl (TemplateNotFound "exported.class").
Proof.
  split; [exact sample_well_formed|].
  exact (proj1 (exported_port_without_class_template Sample.float_repr
    (Sample.templates_without "exported.class") Sample.self
    Sample.base_placeholders Sample.meta Sample.data None false
    (Sample.with_converter Sample.percent_1f) Sample.ready
    (Method.PREDICT, Language.JAVA, Template.EXPORTED)
    sample_well_formed eq_refl eq_refl)).
Defined.

(** X10.  The data document depends on the model data alone: two
    exported ports of the same model data return the same document,
    whatever their languages, naming, JSON flags, converters, placeholders
    and meta information. *)
Theorem exported_document_depends_only_on_model_data
  (float_repr : float -> string) (lt : string -> Environment)
  (self1 self2 : Adapter) (ph1 ph2 : dict) (mi1 mi2 : MetaInfo)
  (md : ModelData)
  (language1 language2 : option Language.t) (to_json1 to_json2 : bool)
  (kw1 kw2 : kwargs) (s1 s2 : state)
  (class1 class2 document1 document2 : string) :
  well_formed self1 s1 ph1 mi1 md ->
  well_formed self2 s2 ph2 mi2 md ->
  fst (port float_repr lt self1 language1 (Some Template.EXPORTED)
         to_json1 kw1 s1) = inr (SourceAndData class1 document1) ->
  fst (port float_repr lt self2 language2 (Some Template.EXPORTED)
         to_json2 kw2 s2) = inr (SourceAndData class2 document2) ->
  document1 = document2.
Proof.
  intros Hwf1 Hwf2 H1 H2.
  destruct (check KNeighborsClassifier None language1
              (Some Template.EXPORTED)) as [e|c1] eqn:E1.
  { rewrite (port_fst float_repr lt self1 ph1 mi1 md) in H1 by done.
    unfold port_result in H1. by rewrite E1 in H1. }
  destruct (check KNeighborsClassifier None language2
              (Some Template.EXPORTED)) as [e|c2] eqn:E2.
  { rewrite (port_fst float_repr lt self2 ph2 mi2 md) in H2 by done.
    unfold port_result in H2. by rewrite E2 in H2. }
  rewrite (exported_port_formula _ _ _ ph1 mi1 md _ _ _ _ c1 Hwf1 E1) in H1.
  rewrite (exported_port_formula _ _ _ ph2 mi2 md _ _ _ _ c2 Hwf2 E2) in H2.
  destruct (lt _ "exported.class"); [|discriminate].
  destruct (lt _ "exported.class"); [|discriminate].
  congruence.
Qed.

Lemma exported_document_depends_only_on_model_data_witness :
  well_formed Sample.self Sample.ready Sample.base_placeholders
    Sample.meta Sample.data /\
  fst (Sample.run_port Sample.self (Some Language.JAVA)
         (Some Template.EXPORTED) false
         (Sample.with_converter Sample.percent_1f) Sample.ready) =
    inr (SourceAndData "class KNN { load(); predict(); }"
           Sample.document) /\
  fst (Sample.run_port Sample.self (Some Language.JS)
         (Some Template.EXPORTED) true Sample.unnamed Sample.ready) =
    inr (SourceAndData "class None { load(); predict(); }"
           Sample.document) /\
  Sample.document = Sample.document.
Proof.
  split; [exact sample_well_formed|].
  split; [reflexivity|]. split; [reflexivity|].
  exact (exported_document_depends_only_on_model_data Sample.float_repr
    Sample._load_templates Sample.self Sample.self
    Sample.base_placeholders Sample.base_placeholders
    Sample.meta Sample.meta Sample.data
    (Some Language.JAVA) (Some Language.JS) false true
    (Sample.with_converter Sample.percent_1f) Sample.unnamed
    Sample.ready Sample.ready
    "class KNN { load(); predict(); }" "class None { load(); predict(); }"
    Sample.document Sample.document
    sample_well_formed sample_well_formed eq_refl eq_refl).
Defined.

(** X11.  Without a [converter] keyword argument an exported port still
    returns the class and the document, and leaves behind an
    [encoder.FLOAT_REPR] that raises [TypeError] whenever it is called. *)
Theorem exported_port_without_converter
  (float_repr : float -> string) (lt : string -> Environment)
  (self : Adapter) (ph : dict) (mi : MetaInfo) (md : ModelData)
  (language : option Language.t) (to_json : bool) (kw : kwargs)
  (s : state) (checked : Method.t * Language.t * Template.t)
  (tpl_class : Fragment) :
  well_formed self s ph mi md ->
  converter kw = None ->
  check KNeighborsClassifier None language (Some Template.EXPORTED)
    = inr checked ->
  lt (Language.KEY (default Language.JAVA language)) "exported.class"
    = Some tpl_class ->
  let run := port float_repr lt self language (Some Template.EXPORTED)
               to_json kw s in
  (exists out_class document,
     fst run = inr (SourceAndData out_class document)) /\
  forall x, FLOAT_REPR (snd run) x =
            inl (TypeError "'NoneType' object is not callable").
Proof.
  intros Hwf Hconv Hcheck Htpl run. unfold run. split.
  - rewrite (exported_port_formula _ _ _ ph mi md _ _ _ _ checked Hwf Hcheck).
    rewrite Htpl. by eexists _, _.
  - intros x.
    rewrite (port_FLOAT_REPR float_repr lt self ph mi md) by done.
    unfold FLOAT_REPR_after. rewrite Hcheck.
    rewrite (checked_exported _ _ Hcheck). cbn [fst snd Template.eqb].
    rewrite Htpl, Hconv. reflexivity.
Qed.

Lemma exported_port_without_converter_witness :
  well_formed Sample.self Sample.ready Sample.base_placeholders
    Sample.meta Sample.data /\
  converter Sample.without_converter = None /\
  FLOAT_REPR
    (snd (Sample.run_port Sample.self None (Some Template.EXPORTED) false
            Sample.without_converter Sample.ready)) Sample.quarter =
  inl (TypeError "'NoneType' object is not callable").
Proof.
  split; [exact sample_well_formed|]. split; [reflexivity|].
  exact (proj2 (exported_port_without_converter Sample.float_repr
    Sample._load_templates Sample.self Sample.base_placeholders Sample.meta
    Sample.data None false Sample.without_converter Sample.ready
    (Method.PREDICT, Language.JAVA, Template.EXPORTED) _
    sample_well_formed eq_refl eq_refl eq_refl) Sample.quarter).
Defined.

(** X12.  The [encoder.FLOAT_REPR] that an exported port has installed
    is still in place after any later attached port of the adapter. *)
Theorem replaced_FLOAT_REPR_survives_attached_ports
  (float_repr : float -> string) (lt : string -> Environment)
  (self : Adapter) (ph : dict) (mi : MetaInfo) (md : ModelData)
  (language1 language2 : option Language.t)
  (template1 template2 : option Template.t)
  (to_json1 to_json2 : bool) (kw1 kw2 : kwargs) (s : state)
  (out_class document : string) :
  well_formed self s ph mi md ->
  fst (port float_repr lt self language1 template1 to_json1 kw1 s) =
    inr (SourceAndData out_class document) ->
  template2 = None \/ template2 = Some Template.ATTACHED ->
  let s1 := snd (port float_repr lt self language1 template1 to_json1
                   kw1 s) in
  FLOAT_REPR (snd (port float_repr lt self language2 template2 to_json2
                     kw2 s1)) =
  call_converter (converter kw1).
Proof.
  intros Hwf H1 Ht s1. unfold s1.
  rewrite (port_FLOAT_REPR float_repr lt self ph mi md)
    by by apply port_keeps_well_formed.
  rewrite FLOAT_REPR_after_attached by done.
  rewrite (port_FLOAT_REPR float_repr lt self ph mi md) by done.
  rewrite (port_fst float_repr lt self ph mi md) in H1 by done.
  by apply (port_result_exported_success _ _ _ _ _ _ _ _ _ _ _ H1).
Qed.

Lemma replaced_FLOAT_REPR_survives_attached_ports_witness :
  well_formed Sample.self Sample.ready Sample.base_placeholders
    Sample.meta Sample.data /\
  let s1 := snd (Sample.run_port Sample.self None (Some Template.EXPORTED)
                   false (Sample.with_converter Sample.percent_1f)
                   Sample.ready) in
  FLOAT_REPR
    (snd (Sample.run_port Sample.self (Some Language.JS) None true
            Sample.unnamed s1)) Sample.quarter = inr "0.2".
Proof.
  split; [exact sample_well_formed|].
  exact (f_equal (fun f => f Sample.quarter)
    (replaced_FLOAT_REPR_survives_attached_ports Sample.float_repr
       Sample._load_templates Sample.self Sample.base_placeholders
       Sample.meta Sample.data None (Some Language.JS)
       (Some Template.EXPORTED) None false true
       (Sample.with_converter Sample.percent_1f) Sample.unnamed
       Sample.ready "class KNN { load(); predict(); }" Sample.document
       sample_well_formed eq_refl (or_introl eq_refl))).
Defined.


(** ** The attached branch *)

Lemma checked_attached language template checked :
  template = None \/ template = Some Template.ATTACHED ->
  check KNeighborsClassifier None language template = inr checked ->
  checked = (Method.PREDICT, default Language.JAVA language,
             Template.ATTACHED).
Proof.
  intros Ht H.
  destruct (check_accepts_only_supported _ _ _ _ _ H) as [-> _].
  by destruct Ht as [-> | ->].
Qed.

Lemma attached_port_formula float_repr lt self ph mi md
  language template to_json kw s checked :
  well_formed self s ph mi md ->
  template = None \/ template = Some Template.ATTACHED ->
  check KNeighborsClassifier None language template = inr checked ->
  fst (port float_repr lt self language template to_json kw s) =
  attached_result (lt (Language.KEY (default Language.JAVA language)))
    (request_placeholders ph mi Method.PREDICT to_json kw) md
    (converter kw).
Proof.
  intros Hwf Ht Hcheck.
  rewrite (port_fst float_repr lt self ph mi md) by done.
  unfold port_result. rewrite Hcheck, exn_bind_inr.
  by rewrite (checked_attached _ _ _ Ht Hcheck).
Qed.

Lemma attached_result_first_missing tpls plas md conv name :
  first_missing tpls generic_templates = Some name ->
  attached_result tpls plas md conv = inl (TemplateNotFound name).
Proof.
  unfold attached_result, find_template, generic_templates.
  cbn [first_missing].
  repeat match goal with
    | |- context [tpls ?n] =>
        destruct (tpls n); [rewrite exn_bind_inr | by intros [= <-]]
    end.
  discriminate.
Qed.

(** X13.  In the attached mode the generic templates are fetched in the
    order [int], [double], [arr[]], [arr[][]], [in_brackets]; the first one
    that the template set lacks is the one [TemplateNotFound] names,
    whatever the converter and the model data are. *)
Theorem missing_generic_template_is_reported_in_fetch_order
  (float_repr : float -> string) (lt : string -> Environment)
  (self : Adapter) (ph : dict) (mi : MetaInfo) (md : ModelData)
  (language : option Language.t) (template : option Template.t)
  (to_json : bool) (kw : kwargs) (s : state)
  (checked : Method.t * Language.t * Template.t) (name : string) :
  well_formed self s ph mi md ->
  template = None \/ template = Some Template.ATTACHED ->
  check KNeighborsClassifier None language template = inr checked ->
  first_missing (lt (Language.KEY (default Language.JAVA language)))
    generic_templates = Some name ->
  fst (port float_repr lt self language template to_json kw s) =
  inl (TemplateNotFound name).
Proof.
  intros Hwf Ht Hcheck Hmiss.
  rewrite (attached_port_formula _ _ _ ph mi md _ _ _ _ _ checked)
    by done.
  by apply attached_result_first_missing.
Qed.

Lemma missing_generic_template_is_reported_in_fetch_order_witness :
  well_formed Sample.self Sample.ready Sample.base_placeholders
    Sample.meta Sample.data /\
  first_missing (Sample.templates_without "arr[][]" "java")
    generic_templates = Some "arr[][]" /\
  fst (port Sample.float_repr (Sample.templates_without "arr[][]")
         Sample.self None None false Sample.without_converter
         Sample.ready) =
  inl (TemplateNotFound "arr[][]").
Proof.
  split; [exact sample_well_formed|]. split; [reflexivity|].
  exact (missing_generic_template_is_reported_in_fetch_order
    Sample.float_repr (Sample.templates_without "arr[][]") Sample.self
    Sample.base_placeholders Sample.meta Sample.data None None false
    Sample.without_converter Sample.ready
    (Method.PREDICT, Language.JAVA, Template.ATTACHED) "arr[][]"
    sample_well_formed (or_introl eq_refl) eq_refl eq_refl).
Defined.

Lemma rows_in_brackets_without_converter in_brackets convert rows :
  rows_in_brackets in_brackets None rows =
  if forallb is_empty_row rows
  then rows_in_brackets in_brackets (Some convert) rows
  else inl (TypeError "'NoneType' object is not callable").
Proof.
  induction rows as [|row rows IH]; [reflexivity|].
  cbn [rows_in_brackets forallb].
  destruct row as [|x row]; cbn [is_empty_row andb]; [|reflexivity].
  unfold row_in_brackets, convert_row. cbn [map]. rewrite IH.
  destruct (forallb is_empty_row rows); [reflexivity|].
  reflexivity.
Qed.

Lemma render_X_without_converter_cases arr_2 in_brackets type convert rows :
  render_X arr_2 in_brackets type None rows =
  if forallb is_empty_row rows
  then render_X arr_2 in_brackets type (Some convert) rows
  else inl (TypeError "'NoneType' object is not callable").
Proof.
  unfold render_X.
  rewrite (rows_in_brackets_without_converter in_brackets convert).
  by destruct (forallb is_empty_row rows).
Qed.

Lemma attached_result_without_converter tpls plas md convert :
  first_missing tpls generic_templates = None ->
  attached_result tpls plas md None =
  if forallb is_empty_row (X md)
  then attached_result tpls plas md (Some convert)
  else inl (TypeError "'NoneType' object is not callable").
Proof.
  unfold attached_result, find_template, generic_templates.
  cbn [first_missing].
  destruct (tpls "int"); [|discriminate].
  destruct (tpls "double"); [|discriminate].
  destruct (tpls "arr[]"); [|discriminate].
  destruct (tpls "arr[][]"); [|discriminate].
  destruct (tpls "in_brackets"); [|discriminate].
  intros _. rewrite !exn_bind_inr.
  rewrite (render_X_without_converter_cases _ _ _ convert).
  by destruct (forallb is_empty_row (X md)).
Qed.

(** X14.  In the attached mode with all generic templates at hand and no
    converter, [port] raises [TypeError] as soon as some row of [X] has a
    cell; when every row is empty no cell is ever converted and the call
    returns what it returns with any converter. *)
Theorem attached_port_without_converter
  (float_repr : float -> string) (lt : string -> Environment)
  (self : Adapter) (ph : dict) (mi : MetaInfo) (md : ModelData)
  (language : option Language.t) (template : option Template.t)
  (to_json : bool) (kw kw' : kwargs) (s : state)
  (checked : Method.t * Language.t * Template.t)
  (convert : float -> string) :
  well_formed self s ph mi md ->
  template = None \/ template = Some Template.ATTACHED ->
  check KNeighborsClassifier None language template = inr checked ->
  first_missing (lt (Language.KEY (default Language.JAVA language)))
    generic_templates = None ->
  converter kw = None ->
  converter kw' = Some convert ->
  class_name kw' = class_name kw ->
  method_name kw' = method_name kw ->
  fst (port float_repr lt self language template to_json kw s) =
  if forallb is_empty_row (X md)
  then fst (port float_repr lt self language template to_json kw' s)
  else inl (TypeError "'NoneType' object is not callable").
Proof.
  intros Hwf Ht Hcheck Hgen Hconv Hconv' Hcn Hmn.
  rewrite !(attached_port_formula _ _ _ ph mi md _ _ _ _ _ checked)
    by done.
  rewrite Hconv, Hconv'.
  rewrite (attached_result_without_converter _ _ _ convert) by done.
  unfold request_placeholders, setdefault_method_name.
  cbn [class_name method_name]. by rewrite Hcn, Hmn.
Qed.

Lemma attached_port_without_converter_witness :
  well_formed Sample.self Sample.ready_featureless
    Sample.base_placeholders Sample.meta Sample.data_featureless /\
  converter Sample.without_converter = None /\
  fst (Sample.run_port Sample.self None None false
         Sample.without_converter Sample.ready_featureless) =
  inr (Source
    "class KNN { double[][] X = {{}, {}}; int[] y = {0, 1}; int k = 1; int n = 2; double power = 2; predict(); }").
Proof.
  assert (H : well_formed Sample.self Sample.ready_featureless
                Sample.base_placeholders Sample.meta
                Sample.data_featureless)
    by exact (conj eq_refl (conj eq_refl eq_refl)).
  split; [exact H|]. split; [reflexivity|].
  exact (attached_port_without_converter Sample.float_repr
    Sample._load_templates Sample.self Sample.base_placeholders Sample.meta
    Sample.data_featureless None None false Sample.without_converter
    (Sample.with_converter Sample.float_repr) Sample.ready_featureless
    (Method.PREDICT, Language.JAVA, Template.ATTACHED) Sample.float_repr
    H (or_introl eq_refl) eq_refl eq_refl eq_refl eq_refl eq_refl eq_refl).
Defined.






